(** * azcaptchaapi: the submit / poll / report protocol of the client library

    A shallow embedding of [azcaptchaapi/__init__.py].  Python strings are
    Rocq strings, each character standing for one code point below 256.
    Coroutines are functions from the state of the world to an outcome (a
    value returned or an exception raised) and the next state of the world.
    The world holds the mutable objects of the program (dictionaries, form
    data, captcha tickets), the file system, the replies the remote service
    is going to give, and a log of the requests issued and of the sleeps. *)

From Stdlib Require Import String Ascii List Bool Arith NArith Lia.
From stdpp Require Import base option list strings.
Import ListNotations.
Local Open Scope string_scope.
Local Open Scope list_scope.

(** ** Python strings *)

Module PyStr.

(** [c in s] for a one-character [c]. *)
Fixpoint contains (c : ascii) (s : string) : bool :=
  match s with
  | EmptyString => false
  | String a s' => if Ascii.eqb a c then true else contains c s'
  end.

(** [s.count(c)] for a one-character [c]. *)
Fixpoint count (c : ascii) (s : string) : nat :=
  match s with
  | EmptyString => 0
  | String a s' => (if Ascii.eqb a c then 1 else 0) + count c s'
  end.

(** [s.split(sep)] for a one-character separator. *)
Fixpoint split (sep : ascii) (s : string) : list string :=
  match s with
  | EmptyString => [EmptyString]
  | String a s' =>
      if Ascii.eqb a sep then EmptyString :: split sep s'
      else match split sep s' with
           | [] => [String a EmptyString]
           | h :: t => String a h :: t
           end
  end.

Definition hex_digit (n : N) : ascii :=
  match String.get (N.to_nat n) "0123456789abcdef" with
  | Some d => d
  | None => "0"%char
  end.

(** [\xhh], two lower-case hexadecimal digits. *)
Definition hex_escape (c : ascii) : string :=
  let n := N_of_ascii c in
  String "\" (String "x" (String (hex_digit (n / 16))
                            (String (hex_digit (n mod 16)) EmptyString))).

Definition single_quote : ascii := "'"%char.
Definition double_quote : ascii := "034"%char.
Definition backslash : ascii := "\"%char.

(** One character of [repr(s)], for the chosen quote character. *)
Definition repr_char (quote c : ascii) : string :=
  let n := N_of_ascii c in
  if Ascii.eqb c quote || Ascii.eqb c backslash
  then String backslash (String c EmptyString)
  else if (n =? 9)%N then "\t"
  else if (n =? 10)%N then "\n"
  else if (n =? 13)%N then "\r"
  else if (n <? 32)%N || (n =? 127)%N then hex_escape c
  else if (n <? 127)%N then String c EmptyString
  else if (n <=? 160)%N || (n =? 173)%N then hex_escape c
  else String c EmptyString.

Fixpoint repr_body (quote : ascii) (s : string) : string :=
  match s with
  | EmptyString => EmptyString
  | String c s' => repr_char quote c ++ repr_body quote s'
  end.

(** [repr(s)]: single quotes, unless the string holds a single quote and
    no double quote. *)
Definition repr (s : string) : string :=
  let quote :=
    if contains single_quote s && negb (contains double_quote s)
    then double_quote else single_quote in
  String quote (repr_body quote s ++ String quote EmptyString).

(** ["prefix%r" % (s,)] *)
Definition format_r (prefix s : string) : string := prefix ++ repr s.

End PyStr.

(** ** Exceptions *)

Inductive exc_class : Set :=
| Exception
| ValueError
| IndexError
| OSError
| ClientError            (* aiohttp.client_exceptions.ClientError *)
| AZCaptchaApiError
| CommunicationError
| ResponseFormatError
| OperationFailedError.

#[global] Instance exc_class_eq_dec : EqDecision exc_class.
Proof. solve_decision. Defined.

Record exc : Set := Exc { exc_type : exc_class; exc_args : string }.

#[global] Instance exc_eq_dec : EqDecision exc.
Proof. solve_decision. Defined.

(** The base class of each class; [Exception] is the root. *)
Definition base_class (c : exc_class) : option exc_class :=
  match c with
  | Exception => None
  | CommunicationError | ResponseFormatError | OperationFailedError =>
      Some AZCaptchaApiError
  | _ => Some Exception
  end.

Definition issubclass (c base : exc_class) : bool :=
  bool_decide (c = base)
  || match base_class c with
     | Some p => bool_decide (p = base)
                 || match base_class p with
                    | Some q => bool_decide (q = base)
                    | None => false
                    end
     | None => false
     end.

Definition isinstance (e : exc) (c : exc_class) : bool :=
  issubclass (exc_type e) c.

(** ** Objects and the world *)

Definition loc := nat.

(** A [dict] with string keys and values, as its items in insertion order. *)
Definition dict := list (string * string).

Module Dict.

Fixpoint get (k : string) (d : dict) : option string :=
  match d with
  | [] => None
  | (k', v) :: d' => if String.eqb k' k then Some v else get k d'
  end.

(** [d[k] = v]: the value is replaced where the key is, a new key goes
    last. *)
Fixpoint set (k v : string) (d : dict) : dict :=
  match d with
  | [] => [(k, v)]
  | (k', v') :: d' =>
      if String.eqb k' k then (k', v) :: d' else (k', v') :: set k v d'
  end.

(** [{**base, **other}] *)
Definition merge (base other : dict) : dict :=
  fold_left (fun acc kv => set (fst kv) (snd kv) acc) other base.

(** [bool(d)] *)
Definition truthy (d : dict) : bool :=
  match d with [] => false | _ => true end.

End Dict.

(** A field of an [aiohttp.FormData]: text, or a [BytesIO] over bytes. *)
Inductive field_value : Set :=
| FText (s : string)
| FBytesIO (raw : string).

#[global] Instance field_value_eq_dec : EqDecision field_value.
Proof. solve_decision. Defined.

(** [aiohttp.FormData]: its fields in the order they were added. *)
Definition FormData := list (string * field_value).

Record AZCaptchaApi : Set := mkApi { api_key : string }.

Record Captcha : Set := mkCaptcha {
  api : AZCaptchaApi;
  captcha_id : string;
  _cached_result : option string;
  _reported_bad : bool
}.

#[global] Instance Captcha_inhabited : Inhabited Captcha :=
  populate (mkCaptcha (mkApi EmptyString) EmptyString None false).

Inductive http_method : Set := GET | POST.

Inductive payload : Set :=
| Params (d : dict)
| Data (f : FormData).

Record request : Set := mkRequest {
  req_method : http_method;
  req_url : string;
  req_payload : payload
}.

(** What the service does with a request: a body comes back, or the
    transport fails. *)
Inductive reply : Set :=
| Body (text : string)
| TransportFailure.

Record ClientResponse : Set := mkResponse { resp_body : string }.

Record World : Type := mkWorld {
  dicts : list dict;              (* the dict objects, by reference *)
  forms : list FormData;          (* the FormData objects, by reference *)
  captchas : list Captcha;        (* the Captcha objects, by reference *)
  fs : string -> option string;   (* the readable files, by path *)
  net : nat -> reply;             (* the reply to the n-th request *)
  sent : list request;            (* the requests issued, oldest first *)
  slept : list nat                (* the asyncio.sleep calls, oldest first *)
}.

Definition with_dicts (ds : list dict) (w : World) : World :=
  mkWorld ds (forms w) (captchas w) (fs w) (net w) (sent w) (slept w).
Definition with_forms (fo : list FormData) (w : World) : World :=
  mkWorld (dicts w) fo (captchas w) (fs w) (net w) (sent w) (slept w).
Definition with_captchas (cs : list Captcha) (w : World) : World :=
  mkWorld (dicts w) (forms w) cs (fs w) (net w) (sent w) (slept w).
Definition with_sent (rs : list request) (w : World) : World :=
  mkWorld (dicts w) (forms w) (captchas w) (fs w) (net w) rs (slept w).
Definition with_slept (sl : list nat) (w : World) : World :=
  mkWorld (dicts w) (forms w) (captchas w) (fs w) (net w) (sent w) sl.

(** ** Coroutines *)

Inductive outcome (A : Type) : Type :=
| Return (a : A)
| Raise (e : exc).
Arguments Return {A} a.
Arguments Raise {A} e.

Definition Coro (A : Type) : Type := World -> outcome A * World.

#[global] Instance Coro_ret : MRet Coro := fun A a w => (Return a, w).

#[global] Instance Coro_bind : MBind Coro := fun A B f m w =>
  match m w with
  | (Return a, w') => f a w'
  | (Raise e, w') => (Raise e, w')
  end.

Definition raise {A} (e : exc) : Coro A := fun w => (Raise e, w).

(** [await asyncio.sleep(wait_time)] *)
Definition sleep (wait_time : nat) : Coro unit := fun w =>
  (Return tt, with_slept (slept w ++ [wait_time]) w).

(** ** Internal convenience decorators *)

Definition communication_error : exc :=
  Exc CommunicationError
      "an error occurred while communicating with the AZCaptcha API".

Definition format_error : exc :=
  Exc ResponseFormatError "unexpected response format".

Definition _rewrite_http_to_com_err {A} (func : Coro A) : Coro A := fun w =>
  match func w with
  | (Return a, w') => (Return a, w')
  | (Raise e, w') =>
      if isinstance e ClientError then (Raise communication_error, w')
      else (Raise e, w')
  end.

Definition _rewrite_to_format_err {A} (exception_types : list exc_class)
    (func : Coro A) : Coro A := fun w =>
  match func w with
  | (Return a, w') => (Return a, w')
  | (Raise e, w') =>
      if existsb (isinstance e) exception_types
      then (Raise format_error, w')
      else (Raise e, w')
  end.

(** The [while retries < max_retries] loop of [retry_on_timeout]; one unit of
    fuel per iteration.  A loop that ends without returning gives [None]. *)
Fixpoint retry_loop {A} (fuel max_retries wait_time : nat)
    (func : Coro (option A)) (retries : nat) : Coro (option A) := fun w =>
  match fuel with
  | 0 => (Return None, w)
  | S fuel' =>
      if (retries <? max_retries)%nat then
        match func w with
        | (Return result, w') => (Return result, w')
        | (Raise e, w') =>
            let retries := S retries in
            if (retries =? max_retries)%nat then (Raise e, w')
            else
              match sleep wait_time w' with
              | (_, w'') =>
                  retry_loop fuel' max_retries wait_time func retries w''
              end
        end
      else (Return None, w)
  end.

Definition retry_on_timeout {A} (max_retries wait_time : nat)
    (func : Coro (option A)) : Coro (option A) :=
  retry_loop max_retries max_retries wait_time func 0.

(** ** The HTTP client *)

Definition client_error : exc := Exc ClientError "transport failure".

(** [session.get(url, params=params)] and [session.post(url, data=data)]:
    the request goes out with the payload as it is at that moment. *)
Definition session_request (m : http_method) (url : string) (p : payload)
    : Coro ClientResponse := fun w =>
  let w' := with_sent (sent w ++ [mkRequest m url p]) w in
  match net w (length (sent w)) with
  | Body text => (Return (mkResponse text), w')
  | TransportFailure => (Raise client_error, w')
  end.

(** [await resp.text()] *)
Definition text (resp : ClientResponse) : Coro string :=
  mret (resp_body resp).

(** A Python value as far as [report_bad] compares them: a string, or the
    method [name] bound to a response. *)
Inductive pyval : Set :=
| PyStr (s : string)
| PyBoundMethod (name : string) (self : ClientResponse).

(** [resp.text], the attribute, not a call. *)
Definition text_attr (resp : ClientResponse) : pyval :=
  PyBoundMethod "text" resp.

(** [a != b] *)
Definition py_ne (a b : pyval) : bool :=
  match a, b with
  | PyStr x, PyStr y => negb (String.eqb x y)
  | PyBoundMethod n r, PyBoundMethod n' r' =>
      negb (String.eqb n n' && String.eqb (resp_body r) (resp_body r'))
  | _, _ => true
  end.

(** ** Object allocation and update *)

Definition new_dict (d : dict) : Coro loc := fun w =>
  (Return (length (dicts w)), with_dicts (dicts w ++ [d]) w).

Definition new_FormData : Coro loc := fun w =>
  (Return (length (forms w)), with_forms (forms w ++ [[]]) w).

Definition new_Captcha (a : AZCaptchaApi) (id : string) : Coro loc := fun w =>
  (Return (length (captchas w)),
   with_captchas (captchas w ++ [mkCaptcha a id None false]) w).

(** [form_data.add_field(name, value)] *)
Definition add_field (form_data : loc) (name : string) (value : field_value)
    : Coro unit := fun w =>
  (Return tt,
   with_forms (<[form_data := (forms w !!! form_data) ++ [(name, value)]]>
                 (forms w)) w).

(** [for k, v in data.items(): form_data.add_field(k, v)] *)
Fixpoint add_fields (form_data : loc) (items : list (string * string))
    : Coro unit :=
  match items with
  | [] => mret tt
  | (k, v) :: rest =>
      add_field form_data k (FText v) ;; add_fields form_data rest
  end.

(** ** Public API: [AZCaptchaApi] *)

Definition BASE_URL : string := "http://azcaptcha.com".
Definition REQ_URL : string := BASE_URL ++ "/in.php".
Definition RES_URL : string := BASE_URL ++ "/res.php".
Definition LOAD_URL : string := BASE_URL ++ "/load.php".

(** [params[k] = v] on the dict object [params]. *)
Definition dict_setitem (params : loc) (k v : string) : Coro unit := fun w =>
  (Return tt,
   with_dicts (<[params := Dict.set k v (dicts w !!! params)]> (dicts w)) w).

(** [session.get(url, params=params)]: the dict object is read when the
    request goes out. *)
Definition session_get (url : string) (params : loc) : Coro ClientResponse :=
  fun w => session_request GET url (Params (dicts w !!! params)) w.

(** [session.post(url, data=data)] *)
Definition session_post (url : string) (data : loc) : Coro ClientResponse :=
  fun w => session_request POST url (Data (forms w !!! data)) w.

(** [AZCaptchaApi.get]: the key goes into the caller's dict object. *)
Definition get (self : AZCaptchaApi) (url : string) (params : loc)
    : Coro ClientResponse :=
  dict_setitem params "key" (api_key self) ;;
  session_get url params.

(** [AZCaptchaApi.post]: the key is added to the caller's form object. *)
Definition post (self : AZCaptchaApi) (url : string) (data : loc)
    : Coro ClientResponse :=
  add_field data "key" (FText (api_key self)) ;;
  session_post url data.





Section Balance.

(** The builtin [float] on strings is a parameter: the number it returns,
    or [None] where it raises [ValueError]. *)
Variable float : Type.
Variable parse_float : string -> option float.

(** [float(s)] *)
Definition py_float (s : string) : Coro float :=
  match parse_float s with
  | Some x => mret x
  | None =>
      raise (Exc ValueError
               (PyStr.format_r "could not convert string to float: " s))
  end.

Definition get_balance (self : AZCaptchaApi) : Coro float :=
  _rewrite_http_to_com_err
    (_rewrite_to_format_err [ValueError]
       (p ← new_dict [("action", "getbalance")];
        resp ← get self RES_URL p;
        body ← text resp;
        py_float body)).

End Balance.

(** The [file] argument of [solve]: a path, or an open file object. *)
Inductive file_arg : Set :=
| Path (p : string)
| FileObject (contents : string).

Definition read_file (file : file_arg) : Coro string := fun w =>
  match file with
  | Path p =>
      match fs w p with
      | Some raw_data => (Return raw_data, w)
      | None => (Raise (Exc OSError p), w)
      end
  | FileObject raw_data => (Return raw_data, w)
  end.

(** [a, b = l] *)
Definition unpack2 {A} (l : list A) : Coro (A * A) :=
  match l with
  | [a; b] => mret (a, b)
  | _ :: _ :: _ :: _ =>
      raise (Exc ValueError "too many values to unpack (expected 2)")
  | _ => raise (Exc ValueError "not enough values to unpack (expected 2)")
  end.

Definition operation_failed (body : string) : exc :=
  Exc OperationFailedError (PyStr.format_r "Operation failed: " body).

Definition default_parameters : dict := [("method", "post")].

(** [captcha_parameters or {'method': 'post'}] *)
Definition parameters_or_default (captcha_parameters : option dict) : dict :=
  match captcha_parameters with
  | Some d => if Dict.truthy d then d else default_parameters
  | None => default_parameters
  end.

Definition solve_body (self : AZCaptchaApi) (file : file_arg)
    (captcha_parameters : option dict) : Coro loc :=
  raw_data ← read_file file;
  form_data ← new_FormData;
  let data := parameters_or_default captcha_parameters in
  add_fields form_data data ;;
  add_field form_data "file" (FBytesIO raw_data) ;;
  resp ← post self REQ_URL form_data;
  body ← text resp;
  if PyStr.contains "|" body then
    ids ← unpack2 (PyStr.split "|" body);
    new_Captcha self (snd ids)
  else raise (operation_failed body).

Definition solve (self : AZCaptchaApi) (file : file_arg)
    (captcha_parameters : option dict) : Coro loc :=
  _rewrite_http_to_com_err
    (_rewrite_to_format_err [IndexError; ValueError]
       (solve_body self file captcha_parameters)).

(** ** Public API: [Captcha] *)

Definition deref (self : loc) : Coro Captcha := fun w =>
  (Return (captchas w !!! self), w).

(** [self._cached_result = v] *)
Definition set_cached_result (self : loc) (v : string) : Coro unit := fun w =>
  let c := captchas w !!! self in
  (Return tt,
   with_captchas
     (<[self := mkCaptcha (api c) (captcha_id c) (Some v) (_reported_bad c)]>
        (captchas w)) w).

Section Ticket.

(** [html.unescape] of the Python standard library is
    [if '&' not in s: return s] followed by
    [return _charref.sub(_replace_charref, s)].  The substitution, with its
    table of named character references, is a parameter. *)
Variable charref_sub : string -> string.

Definition unescape (s : string) : string :=
  if PyStr.contains "&" s then charref_sub s else s.

(** The function under the decorators of [try_get_result]. *)
Definition try_get_result_body (self : loc) : Coro (option string) :=
  c ← deref self;
  match _cached_result c with
  | Some cached => mret (Some cached)
  | None =>
      p ← new_dict [("action", "get"); ("id", captcha_id c)];
      resp ← get (api c) RES_URL p;
      body ← text resp;
      if PyStr.contains "|" body then
        parts ← unpack2 (PyStr.split "|" (unescape body));
        set_cached_result self (snd parts) ;;
        mret (Some (snd parts))
      else if String.eqb body "CAPCHA_NOT_READY"
              || String.eqb body "CAPTCHA_NOT_READY"
      then mret None
      else raise (operation_failed body)
  end.

Definition try_get_result (self : loc) : Coro (option string) :=
  _rewrite_http_to_com_err
    (_rewrite_to_format_err [ValueError]
       (retry_on_timeout 3 1 (try_get_result_body self))).

(** [n] calls of [try_get_result] in a row: the outcomes, oldest first. *)
Fixpoint try_get_result_times (n : nat) (self : loc) (w : World)
    : list (outcome (option string)) * World :=
  match n with
  | 0 => ([], w)
  | S n' =>
      let (r, w1) := try_get_result self w in
      let (rs, w2) := try_get_result_times n' self w1 in
      (r :: rs, w2)
  end.

End Ticket.

Section Await.

Variable charref_sub : string -> string.

(** [await_result]: the [while True] loop, one unit of fuel per iteration;
    [None] when the fuel is gone before the loop has ended.  [sleep_time]
    is in whole seconds. *)
Fixpoint await_result (fuel : nat) (self : loc) (sleep_time : nat) (w : World)
    : option (outcome string * World) :=
  match fuel with
  | 0 => None
  | S fuel' =>
      match try_get_result charref_sub self w with
      | (Return (Some result), w') => Some (Return result, w')
      | (Return None, w') =>
          match sleep sleep_time w' with
          | (_, w'') => await_result fuel' self sleep_time w''
          end
      | (Raise e, w') => Some (Raise e, w')
      end
  end.

End Await.

Definition not_yet_retrieved : exc :=
  Exc ValueError "tried reporting bad state for captcha not yet retrieved".

Definition double_report : exc :=
  Exc ValueError "tried double-reporting bad captcha".

Definition unexpected_api_response : exc :=
  Exc ResponseFormatError "unexpected API response".

(** The function under the decorator of [report_bad]. *)
Definition report_bad_body (self : loc) : Coro unit :=
  c ← deref self;
  match _cached_result c with
  | None => raise not_yet_retrieved
  | Some _ =>
      if _reported_bad c then raise double_report
      else
        p ← new_dict [("action", "reportbad"); ("id", captcha_id c)];
        resp ← get (api c) RES_URL p;
        if py_ne (text_attr resp) (PyStr "OK_REPORT_RECORDED")
        then raise unexpected_api_response
        else mret tt
  end.

Definition report_bad (self : loc) : Coro unit :=
  _rewrite_http_to_com_err (report_bad_body self).

(** ** A table-driven instance of the entity substitution

    [html.unescape] restricted to the character references of [charrefs],
    each with its closing semicolon; any other ampersand stays in place. *)

Module Html.

Definition charrefs : list (string * string) :=
  [ ("&#124;", "|"); ("&vert;", "|"); ("&amp;", "&");
    ("&lt;", "<"); ("&gt;", ">"); ("&#39;", "'") ].

Fixpoint lookup_prefix (table : list (string * string)) (s : string)
    : option (string * string) :=
  match table with
  | [] => None
  | (ref, value) :: table' =>
      if String.prefix ref s then Some (ref, value)
      else lookup_prefix table' s
  end.

(** [skip] characters of a reference already replaced remain to be
    dropped. *)
Fixpoint sub_from (skip : nat) (s : string) : string :=
  match s with
  | EmptyString => EmptyString
  | String a s' =>
      match skip with
      | S k => sub_from k s'
      | 0 =>
          match lookup_prefix charrefs s with
          | Some (ref, value) => value ++ sub_from (String.length ref - 1) s'
          | None => String a (sub_from 0 s')
          end
      end
  end.

Definition charref_sub (s : string) : string := sub_from 0 s.

End Html.

(** ** The worlds after a request

    Names for the world each operation leaves behind, and for the parts of
    the outcomes, as the statements below use them. *)

Definition response_of (r : reply) : outcome ClientResponse :=
  match r with
  | Body body => Return (mkResponse body)
  | TransportFailure => Raise client_error
  end.

(** The world after [get]: the key is in the dict object, and the request
    that went out carries the dict as it then is. *)
Definition after_get (self : AZCaptchaApi) (url : string) (params : loc)
    (w : World) : World :=
  let keyed := Dict.set "key" (api_key self) (dicts w !!! params) in
  with_sent (sent w ++ [mkRequest GET url (Params keyed)])
    (with_dicts (<[params := keyed]> (dicts w)) w).

Definition after_post (self : AZCaptchaApi) (url : string) (data : loc)
    (w : World) : World :=
  let keyed := (forms w !!! data) ++ [("key", FText (api_key self))] in
  with_sent (sent w ++ [mkRequest POST url (Data keyed)])
    (with_forms (<[data := keyed]> (forms w)) w).

Definition poll_params (c : Captcha) : dict :=
  [("action", "get"); ("id", captcha_id c); ("key", api_key (api c))].

(** The world after the request of one attempt: a dict object was made for
    the parameters and the request is in the log. *)
Definition polled (c : Captcha) (w : World) : World :=
  with_sent (sent w ++ [mkRequest GET RES_URL (Params (poll_params c))])
    (with_dicts (dicts w ++ [poll_params c]) w).

(** The ticket [t], holding [c] before, with the result [v] cached. *)
Definition resolved (t : loc) (c : Captcha) (v : string) (w : World) : World :=
  with_captchas
    (<[t := mkCaptcha (api c) (captcha_id c) (Some v) (_reported_bad c)]>
       (captchas w)) w.

Definition is_not_ready (body : string) : bool :=
  String.eqb body "CAPCHA_NOT_READY" || String.eqb body "CAPTCHA_NOT_READY".

(** What the two rewriting decorators make of an exception that leaves the
    retry wrapper. *)
Definition rewritten (e : exc) : exc :=
  if isinstance e ValueError then format_error
  else if isinstance e ClientError then communication_error
  else e.

Definition text_field (kv : string * string) : string * field_value :=
  (fst kv, FText (snd kv)).

(** The fields of the form [solve] sends: the parameters, the file, the
    key. *)
Definition submitted_fields (self : AZCaptchaApi) (raw_data : string)
    (captcha_parameters : option dict) : FormData :=
  map text_field (parameters_or_default captcha_parameters)
  ++ [("file", FBytesIO raw_data); ("key", FText (api_key self))].

(** The world after the request of [solve]: a form object was made and the
    request is in the log. *)
Definition submitted (self : AZCaptchaApi) (raw_data : string)
    (captcha_parameters : option dict) (w : World) : World :=
  let fields := submitted_fields self raw_data captcha_parameters in
  with_sent (sent w ++ [mkRequest POST REQ_URL (Data fields)])
    (with_forms (forms w ++ [fields]) w).

Definition report_params (c : Captcha) : dict :=
  [("action", "reportbad"); ("id", captcha_id c); ("key", api_key (api c))].

(** The world after the request of [report_bad]: a dict object was made for
    the parameters and the request is in the log; no ticket has changed. *)
Definition reported (c : Captcha) (w : World) : World :=
  with_sent (sent w ++ [mkRequest GET RES_URL (Params (report_params c))])
    (with_dicts (dicts w ++ [report_params c]) w).

Definition hex_value (d : ascii) : N :=
  let n := N_of_ascii d in
  if (n <? 58)%N then (n - 48)%N else (n - 87)%N.

(** Reads one character of a [repr] back: [None] at the closing quote and
    at the end. *)
Definition unrepr_char (quote : ascii) (s : string) : option (ascii * string) :=
  match s with
  | EmptyString => None
  | String a rest =>
      if Ascii.eqb a quote then None
      else if Ascii.eqb a PyStr.backslash then
        match rest with
        | String "x" (String h (String l rest')) =>
            Some (ascii_of_N (16 * hex_value h + hex_value l), rest')
        | String "t" rest' => Some ("009"%char, rest')
        | String "n" rest' => Some ("010"%char, rest')
        | String "r" rest' => Some ("013"%char, rest')
        | String b rest' => Some (b, rest')
        | EmptyString => None
        end
      else Some (a, rest)
  end.

(** What one attempt of [try_get_result] makes of a reply, on a ticket
    without a cached result. *)
Inductive reading : Set :=
| Ready (captcha_text : string)
| NotReady
| Failed (e : exc).

Definition read_reply (charref_sub : string -> string) (r : reply) : reading :=
  match r with
  | TransportFailure => Failed client_error
  | Body body =>
      if PyStr.contains "|" body then
        match PyStr.split "|" (unescape charref_sub body) with
        | [_; captcha_text] => Ready captcha_text
        | _ :: _ :: _ :: _ =>
            Failed (Exc ValueError "too many values to unpack (expected 2)")
        | _ =>
            Failed (Exc ValueError "not enough values to unpack (expected 2)")
        end
      else if is_not_ready body then NotReady
      else Failed (operation_failed body)
  end.

(** The world after an attempt that did not resolve the ticket, and the
    sleep that follows it. *)
Definition polled_and_slept (c : Captcha) (seconds : nat) (w : World) : World :=
  snd (sleep seconds (polled c w)).

(** The world after a GET with the parameters [params], made as a new dict
    object. *)
Definition requested (url : string) (params : dict) (w : World) : World :=
  with_sent (sent w ++ [mkRequest GET url (Params params)])
    (with_dicts (dicts w ++ [params]) w).

(** The request of one attempt of [try_get_result]. *)
Definition poll_request (c : Captcha) : request :=
  mkRequest GET RES_URL (Params (poll_params c)).

(** The reply is one of the two not-ready codes. *)
Definition says_not_ready (r : reply) : Prop :=
  r = Body "CAPCHA_NOT_READY" \/ r = Body "CAPTCHA_NOT_READY".

(** ** Sample worlds *)

(** The value of a string of decimal digits. *)
Fixpoint digits_value (acc : N) (s : string) : option N :=
  match s with
  | EmptyString => Some acc
  | String a s' =>
      let n := N_of_ascii a in
      if (48 <=? n)%N && (n <=? 57)%N
      then digits_value (10 * acc + (n - 48)) s'
      else None
  end.

(** An instance of the [float] parser for plain decimal notation, digits
    with at most one point: the digits without the point, and how many of
    them follow the point.  Everything else is refused. *)
Definition plain_decimal (s : string) : option (N * nat) :=
  match PyStr.split "." s with
  | [whole] =>
      match whole with
      | EmptyString => None
      | _ => option_map (fun v => (v, 0)) (digits_value 0 whole)
      end
  | [whole; fraction] =>
      match (whole ++ fraction)%string with
      | EmptyString => None
      | digits =>
          option_map (fun v => (v, String.length fraction))
            (digits_value 0 digits)
      end
  | _ => None
  end.

Definition demo_api : AZCaptchaApi := mkApi "KEY".

Definition demo_world (replies : list reply) : World :=
  mkWorld [[("action", "getbalance")]] [[("method", FText "post")]] []
    (fun _ => None) (fun n => nth n replies TransportFailure) [] [].

Definition fresh_ticket : Captcha := mkCaptcha demo_api "77" None false.

Definition solved_ticket : Captcha :=
  mkCaptcha demo_api "77" (Some "abc123") false.

(** A world with one ticket, and the replies [replies] to come. *)
Definition ticket_world (c : Captcha) (replies : list reply) : World :=
  mkWorld [] [] [c] (fun _ => None)
    (fun n => nth n replies TransportFailure) [] [].

(** A function that raises each time it is run. *)
Definition always_refused : Coro (option string) :=
  raise (operation_failed "ERROR_WRONG_CAPTCHA_ID").


(** A ticket as it would be had [_reported_bad] been set. *)
Definition flagged_ticket : Captcha :=
  mkCaptcha demo_api "77" (Some "abc123") true.

(** * Properties *)

(** ** Strings *)

Lemma contains_count c s : PyStr.contains c s = true <-> 0 < PyStr.count c s.
Proof.
  induction s as [|a s IH]; simpl.
  - split; [discriminate | lia].
  - destruct (Ascii.eqb a c); simpl; [split; [lia | reflexivity] | exact IH].
Qed.

Lemma contains_app c s1 s2 :
  PyStr.contains c (s1 ++ s2) = PyStr.contains c s1 || PyStr.contains c s2.
Proof.
  induction s1 as [|a s1 IH]; simpl; [reflexivity|].
  destruct (Ascii.eqb a c); [reflexivity | exact IH].
Qed.

Lemma contains_delimited c pre post :
  PyStr.contains c (pre ++ String c post) = true.
Proof.
  rewrite contains_app. simpl. rewrite Ascii.eqb_refl.
  apply orb_true_r.
Qed.

Lemma split_without sep s :
  PyStr.contains sep s = false -> PyStr.split sep s = [s].
Proof.
  induction s as [|a s IH]; simpl; [reflexivity|].
  destruct (Ascii.eqb a sep); [discriminate|].
  intros H. rewrite (IH H). reflexivity.
Qed.

Lemma split_length sep s : length (PyStr.split sep s) = S (PyStr.count sep s).
Proof.
  induction s as [|a s IH]; simpl; [reflexivity|].
  destruct (Ascii.eqb a sep); simpl; [now rewrite IH|].
  destruct (PyStr.split sep s); simpl in *; [discriminate | exact IH].
Qed.

(** One delimiter: the two parts are what stands before and after it. *)
Lemma split_once sep pre post :
  PyStr.contains sep pre = false ->
  PyStr.contains sep post = false ->
  PyStr.split sep (pre ++ String sep post) = [pre; post].
Proof.
  intros Hpre Hpost. induction pre as [|a pre IH]; simpl in *.
  - rewrite Ascii.eqb_refl, (split_without _ _ Hpost). reflexivity.
  - destruct (Ascii.eqb a sep); [discriminate|].
    rewrite (IH Hpre). reflexivity.
Qed.

(** Two delimiters or more: three parts or more. *)
Lemma split_many sep s :
  2 <= PyStr.count sep s ->
  exists a b c rest, PyStr.split sep s = a :: b :: c :: rest.
Proof.
  intros H. pose proof (split_length sep s) as L.
  destruct (PyStr.split sep s) as [|a [|b [|c rest]]]; simpl in L; try lia.
  now exists a, b, c, rest.
Qed.

(** ** Dictionaries *)

Lemma dict_get_set_eq k v d : Dict.get k (Dict.set k v d) = Some v.
Proof.
  induction d as [|[k' v'] d IH]; simpl.
  - now rewrite String.eqb_refl.
  - destruct (String.eqb k' k) eqn:E; simpl; rewrite E; [reflexivity | exact IH].
Qed.

Lemma dict_get_set_ne k k' v d :
  k <> k' -> Dict.get k' (Dict.set k v d) = Dict.get k' d.
Proof.
  intros Hne. induction d as [|[k0 v0] d IH]; simpl.
  - destruct (String.eqb_spec k k'); [contradiction | reflexivity].
  - destruct (String.eqb_spec k0 k) as [->|Hk]; simpl.
    + destruct (String.eqb_spec k k'); [contradiction | reflexivity].
    + now rewrite IH.
Qed.

Lemma dict_set_set k v d : Dict.set k v (Dict.set k v d) = Dict.set k v d.
Proof.
  induction d as [|[k0 v0] d IH]; simpl.
  - now rewrite String.eqb_refl.
  - destruct (String.eqb k0 k) eqn:E; simpl; rewrite E; [reflexivity|].
    now rewrite IH.
Qed.

(** ** The object store *)

Lemma total_lookup_alloc {A} `{!Inhabited A} (l : list A) (x : A) :
  (l ++ [x]) !!! length l = x.
Proof. now rewrite list_lookup_total_middle. Qed.

Lemma insert_alloc {A} (l : list A) (x y : A) :
  <[length l := y]> (l ++ [x]) = l ++ [y].
Proof.
  replace (length l) with (length l + 0) at 1 by lia.
  now rewrite insert_app_r.
Qed.

Lemma lookup_alloc {A} (l : list A) (x : A) : (l ++ [x]) !! length l = Some x.
Proof. now rewrite list_lookup_middle. Qed.

Lemma total_lookup_at {A} `{!Inhabited A} (l : list A) (i : nat) (x : A) :
  l !! i = Some x -> l !!! i = x.
Proof. apply list_lookup_total_correct. Qed.

(** ** The low-level requests *)

Ltac coro_unfold :=
  unfold mbind, Coro_bind, mret, Coro_ret, raise, deref, text in *.

Lemma get_spec self url params w :
  params < length (dicts w) ->
  get self url params w =
    (response_of (net w (length (sent w))), after_get self url params w).
Proof.
  intros Hlt. unfold get, dict_setitem, session_get, session_request, after_get.
  coro_unfold. simpl.
  rewrite list_lookup_total_insert_eq by exact Hlt.
  destruct (net w (length (sent w))); reflexivity.
Qed.

Lemma post_spec self url data w :
  data < length (forms w) ->
  post self url data w =
    (response_of (net w (length (sent w))), after_post self url data w).
Proof.
  intros Hlt. unfold post, add_field, session_post, session_request, after_post.
  coro_unfold. simpl.
  rewrite list_lookup_total_insert_eq by exact Hlt.
  destruct (net w (length (sent w))); reflexivity.
Qed.

(** C10: [get] puts [key = api_key] into the dict object it is given, and
    [post] adds the field [key = api_key] to the form object it is given, in
    place and before the request goes out: the request carries the key, the
    caller's object keeps it, the other keys of the dict are as they were,
    and a dict passed to [get] a second time still holds the key. *)
Theorem api_key_inserted_in_place (self : AZCaptchaApi) (url : string)
    (params data : loc) (w : World) (d : dict) (f : FormData) :
  dicts w !! params = Some d ->
  forms w !! data = Some f ->
  let keyed := Dict.set "key" (api_key self) d in
  let field := ("key", FText (api_key self)) in
  let w1 := snd (get self url params w) in
  let w2 := snd (get self url params w1) in
  let w3 := snd (post self url data w) in
  Dict.get "key" keyed = Some (api_key self)
  /\ (forall k, k <> "key" -> Dict.get k keyed = Dict.get k d)
  /\ dicts w1 !! params = Some keyed
  /\ sent w1 = sent w ++ [mkRequest GET url (Params keyed)]
  /\ dicts w2 !! params = Some keyed
  /\ sent w2 = sent w1 ++ [mkRequest GET url (Params keyed)]
  /\ forms w3 !! data = Some (f ++ [field])
  /\ sent w3 = sent w ++ [mkRequest POST url (Data (f ++ [field]))].
Proof.
  intros Hd Hf keyed field w1 w2 w3.
  pose proof (lookup_lt_Some _ _ _ Hd) as Ld.
  pose proof (lookup_lt_Some _ _ _ Hf) as Lf.
  assert (E1 : w1 = after_get self url params w)
    by (subst w1; now rewrite get_spec).
  assert (L1 : params < length (dicts w1))
    by (rewrite E1; simpl; now rewrite length_insert).
  assert (D1 : dicts w1 !! params = Some keyed).
  { rewrite E1. simpl. rewrite (total_lookup_at _ _ _ Hd).
    now apply list_lookup_insert_eq. }
  assert (E2 : w2 = after_get self url params w1)
    by (subst w2; now rewrite get_spec).
  assert (E3 : w3 = after_post self url data w)
    by (subst w3; now rewrite post_spec).
  split; [apply dict_get_set_eq|].
  split; [intros k Hk; apply dict_get_set_ne; congruence|].
  split; [exact D1|].
  split; [rewrite E1; simpl; now rewrite (total_lookup_at _ _ _ Hd)|].
  split.
  { rewrite E2. simpl. rewrite (total_lookup_at _ _ _ D1).
    subst keyed. rewrite dict_set_set. now apply list_lookup_insert_eq. }
  split.
  { rewrite E2. simpl. rewrite (total_lookup_at _ _ _ D1).
    subst keyed. now rewrite dict_set_set. }
  split.
  { rewrite E3. simpl. rewrite (total_lookup_at _ _ _ Hf).
    now apply list_lookup_insert_eq. }
  rewrite E3. simpl. now rewrite (total_lookup_at _ _ _ Hf).
Qed.

Lemma api_key_inserted_in_place_witness :
  let w := demo_world [Body "1.5"; TransportFailure] in
  let keyed := [("action", "getbalance"); ("key", "KEY")] in
  let w1 := snd (get demo_api RES_URL 0 w) in
  let w2 := snd (get demo_api RES_URL 0 w1) in
  dicts w1 !! 0 = Some keyed
  /\ sent w1 = [mkRequest GET RES_URL (Params keyed)]
  /\ dicts w2 !! 0 = Some keyed
  /\ sent w2 = sent w1 ++ [mkRequest GET RES_URL (Params keyed)].
Proof.
  intros w keyed w1 w2.
  destruct (api_key_inserted_in_place demo_api RES_URL 0 0 w
              [("action", "getbalance")] [("method", FText "post")]
              eq_refl eq_refl)
    as (_ & _ & H1 & H2 & H3 & H4 & _).
  repeat split; assumption.
Defined.

(** ** The retry wrapper *)

(** Fuel beyond the iterations that are left changes nothing, so the fuel
    [max_retries] of [retry_on_timeout] never runs out. *)
Lemma retry_loop_fuel_enough {A} (func : Coro (option A)) max_retries wait_time
    fuel retries w :
  max_retries - retries <= fuel ->
  retry_loop fuel max_retries wait_time func retries w =
  retry_loop (max_retries - retries) max_retries wait_time func retries w.
Proof.
  revert retries w.
  induction fuel as [|fuel IH]; intros retries w Hle.
  - replace (max_retries - retries) with 0 by lia. reflexivity.
  - destruct (max_retries - retries) as [|k] eqn:Ek.
    + cbn [retry_loop].
      destruct (Nat.ltb_spec retries max_retries); [lia | reflexivity].
    + cbn [retry_loop]. destruct (retries <? max_retries)%nat; [|reflexivity].
      destruct (func w) as [[result|e] w']; [reflexivity|].
      destruct (S retries =? max_retries)%nat; [reflexivity|].
      destruct (sleep wait_time w') as [u w''].
      rewrite IH by lia.
      replace (max_retries - S retries) with k by lia. reflexivity.
Qed.

(** Three tries at most: what a failed try raised is dropped unless it was
    the third, and the wrapper sleeps after the first and the second. *)
Lemma retry_on_timeout_3 {A} (func : Coro (option A)) wait_time w :
  retry_on_timeout 3 wait_time func w =
  match func w with
  | (Return result, w1) => (Return result, w1)
  | (Raise _, w1) =>
      match func (snd (sleep wait_time w1)) with
      | (Return result, w2) => (Return result, w2)
      | (Raise _, w2) => func (snd (sleep wait_time w2))
      end
  end.
Proof.
  unfold retry_on_timeout. simpl.
  destruct (func w) as [[r1|e1] w1]; [reflexivity|].
  destruct (func _) as [[r2|e2] w2]; [reflexivity|].
  destruct (func _) as [[r3|e3] w3]; reflexivity.
Qed.

(** ** One attempt at polling *)

Lemma after_get_fresh c w :
  after_get (api c) RES_URL (length (dicts w))
    (with_dicts (dicts w ++ [[("action", "get"); ("id", captcha_id c)]]) w)
  = polled c w.
Proof.
  unfold after_get, polled. simpl.
  now rewrite total_lookup_alloc, insert_alloc.
Qed.

Section Polling.

Variable charref_sub : string -> string.
Variables (t : loc) (c : Captcha) (w : World).
Hypothesis ticket : captchas w !! t = Some c.

Lemma attempt_cached v :
  _cached_result c = Some v ->
  try_get_result_body charref_sub t w = (Return (Some v), w).
Proof.
  intros Hv. unfold try_get_result_body. coro_unfold.
  now rewrite (total_lookup_at _ _ _ ticket), Hv.
Qed.

Lemma attempt_transport_failure :
  _cached_result c = None ->
  net w (length (sent w)) = TransportFailure ->
  try_get_result_body charref_sub t w = (Raise client_error, polled c w).
Proof.
  intros Hc Hnet. unfold try_get_result_body. coro_unfold.
  rewrite (total_lookup_at _ _ _ ticket), Hc.
  unfold new_dict. rewrite get_spec by (simpl; rewrite length_app; simpl; lia).
  rewrite after_get_fresh. simpl. now rewrite Hnet.
Qed.

(** What one attempt makes of a body that came back. *)
Lemma attempt_body body :
  _cached_result c = None ->
  net w (length (sent w)) = Body body ->
  try_get_result_body charref_sub t w =
  if PyStr.contains "|" body then
    match PyStr.split "|" (unescape charref_sub body) with
    | [_; captcha_text] =>
        (Return (Some captcha_text), resolved t c captcha_text (polled c w))
    | _ :: _ :: _ :: _ =>
        (Raise (Exc ValueError "too many values to unpack (expected 2)"),
         polled c w)
    | _ =>
        (Raise (Exc ValueError "not enough values to unpack (expected 2)"),
         polled c w)
    end
  else if is_not_ready body then (Return None, polled c w)
  else (Raise (operation_failed body), polled c w).
Proof.
  intros Hc Hnet. unfold try_get_result_body. coro_unfold.
  rewrite (total_lookup_at _ _ _ ticket), Hc.
  unfold new_dict. rewrite get_spec by (simpl; rewrite length_app; simpl; lia).
  rewrite after_get_fresh. simpl. rewrite Hnet. simpl.
  destruct (PyStr.contains "|" body).
  - destruct (PyStr.split "|" (unescape charref_sub body)) as [|a [|b [|x l]]];
      try reflexivity.
    unfold unpack2, set_cached_result, resolved. coro_unfold. simpl.
    now rewrite (total_lookup_at _ _ _ ticket).
  - unfold is_not_ready. destruct (_ || _); reflexivity.
Qed.

End Polling.

(** ** [try_get_result] under its decorators *)

Lemma try_get_result_decorated charref_sub t w :
  try_get_result charref_sub t w =
  match retry_on_timeout 3 1 (try_get_result_body charref_sub t) w with
  | (Return result, w') => (Return result, w')
  | (Raise e, w') => (Raise (rewritten e), w')
  end.
Proof.
  unfold try_get_result, _rewrite_http_to_com_err, _rewrite_to_format_err.
  destruct (retry_on_timeout _ _ _ w) as [[result|e] w']; [reflexivity|].
  unfold rewritten. simpl. rewrite orb_false_r.
  destruct (isinstance e ValueError); [reflexivity|].
  destruct (isinstance e ClientError); reflexivity.
Qed.

(** An attempt that returns ends the call: no retry, no sleep. *)
Lemma try_get_result_returns_at_once charref_sub t w result w' :
  try_get_result_body charref_sub t w = (Return result, w') ->
  try_get_result charref_sub t w = (Return result, w').
Proof.
  intros H. now rewrite try_get_result_decorated, retry_on_timeout_3, H.
Qed.

(** C6: on a ticket whose [_cached_result] is set, any number of calls of
    [try_get_result] in a row return the cached value each time and leave
    the world as it was: no request is issued, and neither the cached result
    nor anything else is assigned. *)
Theorem cached_result_is_final (charref_sub : string -> string) (t : loc)
    (w : World) (c : Captcha) (v : string) (n : nat) :
  captchas w !! t = Some c ->
  _cached_result c = Some v ->
  try_get_result_times charref_sub n t w = (repeat (Return (Some v)) n, w).
Proof.
  intros Ht Hv. induction n as [|n IH]; simpl; [reflexivity|].
  rewrite (try_get_result_returns_at_once _ _ _ _ _
             (attempt_cached charref_sub t c w Ht v Hv)).
  now rewrite IH.
Qed.

Lemma cached_result_is_final_witness :
  try_get_result_times Html.charref_sub 4 0 (ticket_world solved_ticket [])
  = (repeat (Return (Some "abc123")) 4, ticket_world solved_ticket []).
Proof.
  exact (cached_result_is_final Html.charref_sub 0
           (ticket_world solved_ticket []) solved_ticket "abc123" 4
           eq_refl eq_refl).
Defined.

(** C7: with the replies [CAPTCHA_NOT_READY], [CAPCHA_NOT_READY] and
    [OK|abc123] to come, three calls of [try_get_result] on a pending ticket
    return [None], [None] and ["abc123"]; the ticket is as it was after the
    first two calls and holds the cached result ["abc123"] after the third;
    each call issues one request and none sleeps, so neither spelling of the
    not-ready code is retried or raised. *)
Theorem poll_until_ready (charref_sub : string -> string) (t : loc)
    (w : World) (c : Captcha) :
  captchas w !! t = Some c ->
  _cached_result c = None ->
  net w (length (sent w)) = Body "CAPTCHA_NOT_READY" ->
  net w (1 + length (sent w)) = Body "CAPCHA_NOT_READY" ->
  net w (2 + length (sent w)) = Body "OK|abc123" ->
  let r1 := try_get_result charref_sub t w in
  let r2 := try_get_result charref_sub t (snd r1) in
  let r3 := try_get_result charref_sub t (snd r2) in
  fst r1 = Return None
  /\ captchas (snd r1) !! t = Some c
  /\ fst r2 = Return None
  /\ captchas (snd r2) !! t = Some c
  /\ fst r3 = Return (Some "abc123")
  /\ captchas (snd r3) !! t =
       Some (mkCaptcha (api c) (captcha_id c) (Some "abc123") (_reported_bad c))
  /\ length (sent (snd r3)) = 3 + length (sent w)
  /\ slept (snd r3) = slept w.
Proof.
  intros Ht Hc N1 N2 N3 r1 r2 r3.
  assert (E1 : r1 = (Return None, polled c w)).
  { subst r1. apply try_get_result_returns_at_once.
    now rewrite (attempt_body charref_sub t c w Ht _ Hc N1). }
  assert (E2 : r2 = (Return None, polled c (polled c w))).
  { subst r2. rewrite E1. cbn [snd]. apply try_get_result_returns_at_once.
    rewrite (attempt_body charref_sub t c (polled c w) Ht "CAPCHA_NOT_READY" Hc);
      [reflexivity|].
    simpl. rewrite length_app. simpl.
    now replace (length (sent w) + 1) with (1 + length (sent w)) by lia. }
  assert (E3 : r3 = (Return (Some "abc123"),
                     resolved t c "abc123" (polled c (polled c (polled c w))))).
  { subst r3. rewrite E2. cbn [snd]. apply try_get_result_returns_at_once.
    rewrite (attempt_body charref_sub t c (polled c (polled c w)) Ht "OK|abc123" Hc);
      [reflexivity|].
    simpl. rewrite !length_app. simpl.
    now replace (length (sent w) + 1 + 1) with (2 + length (sent w)) by lia. }
  rewrite E1, E2, E3. simpl.
  repeat split; try assumption.
  - apply list_lookup_insert_eq. eapply lookup_lt_Some, Ht.
  - rewrite !length_app. simpl. lia.
Qed.

Lemma poll_until_ready_witness :
  let w := ticket_world fresh_ticket
             [Body "CAPTCHA_NOT_READY"; Body "CAPCHA_NOT_READY"; Body "OK|abc123"] in
  let r1 := try_get_result Html.charref_sub 0 w in
  let r2 := try_get_result Html.charref_sub 0 (snd r1) in
  let r3 := try_get_result Html.charref_sub 0 (snd r2) in
  fst r1 = Return None
  /\ fst r2 = Return None
  /\ fst r3 = Return (Some "abc123")
  /\ captchas (snd r3) !! 0 = Some solved_ticket.
Proof.
  intros w r1 r2 r3.
  destruct (poll_until_ready Html.charref_sub 0 w fresh_ticket
              eq_refl eq_refl eq_refl eq_refl eq_refl)
    as (H1 & _ & H2 & _ & H3 & H4 & _).
  repeat split; assumption.
Defined.

(** C8: under [retry_on_timeout(max_retries=3, wait_time=1)], when the first
    and the second attempt of [try_get_result] raise, whatever they raise is
    dropped, the wrapper sleeps one second after each, and the call ends as
    the third attempt ends: its result is returned, or its exception is
    raised, an instance of [ClientError] (a transport failure) as
    [CommunicationError], an instance of [ValueError] as
    [ResponseFormatError], any other as it is. *)
Theorem retry_keeps_last_attempt (charref_sub : string -> string) (t : loc)
    (w w1 w2 w3 : World) (e1 e2 : exc) (last : outcome (option string)) :
  try_get_result_body charref_sub t w = (Raise e1, w1) ->
  try_get_result_body charref_sub t (snd (sleep 1 w1)) = (Raise e2, w2) ->
  try_get_result_body charref_sub t (snd (sleep 1 w2)) = (last, w3) ->
  try_get_result charref_sub t w =
    (match last with
     | Return result => Return result
     | Raise e3 =>
         if isinstance e3 ValueError then Raise format_error
         else if isinstance e3 ClientError then Raise communication_error
         else Raise e3
     end, w3).
Proof.
  intros H1 H2 H3.
  rewrite try_get_result_decorated, retry_on_timeout_3, H1, H2, H3.
  destruct last as [result|e3]; [reflexivity|].
  unfold rewritten.
  destruct (isinstance e3 ValueError); [reflexivity|].
  destruct (isinstance e3 ClientError); reflexivity.
Qed.

(** Two transport failures, then [OK|abc123]: the call returns ["abc123"]
    after three requests and two sleeps of one second. *)
Lemma retry_keeps_last_attempt_witness :
  let w := ticket_world fresh_ticket
             [TransportFailure; TransportFailure; Body "OK|abc123"] in
  let r := try_get_result Html.charref_sub 0 w in
  fst r = Return (Some "abc123")
  /\ captchas (snd r) !! 0 = Some solved_ticket
  /\ length (sent (snd r)) = 3
  /\ slept (snd r) = [1; 1].
Proof.
  intros w r. subst r.
  rewrite (retry_keeps_last_attempt Html.charref_sub 0 w
             (polled fresh_ticket w)
             (polled fresh_ticket (snd (sleep 1 (polled fresh_ticket w))))
             (resolved 0 fresh_ticket "abc123"
                (polled fresh_ticket
                   (snd (sleep 1 (polled fresh_ticket
                                    (snd (sleep 1 (polled fresh_ticket w))))))))
             client_error client_error (Return (Some "abc123"))
             eq_refl eq_refl eq_refl).
  repeat split.
Defined.

(** Three transport failures: the third is raised, as a
    [CommunicationError]. *)
Lemma three_transport_failures charref_sub t w c :
  captchas w !! t = Some c ->
  _cached_result c = None ->
  net w (length (sent w)) = TransportFailure ->
  net w (1 + length (sent w)) = TransportFailure ->
  net w (2 + length (sent w)) = TransportFailure ->
  fst (try_get_result charref_sub t w) = Raise communication_error.
Proof.
  intros Ht Hc N1 N2 N3.
  pose proof (attempt_transport_failure charref_sub t c w Ht Hc N1) as A1.
  assert (A2 : try_get_result_body charref_sub t (snd (sleep 1 (polled c w)))
               = (Raise client_error, polled c (snd (sleep 1 (polled c w))))).
  { apply attempt_transport_failure; [exact Ht | exact Hc |].
    simpl. rewrite length_app. simpl.
    now replace (length (sent w) + 1) with (1 + length (sent w)) by lia. }
  assert (A3 : try_get_result_body charref_sub t
                 (snd (sleep 1 (polled c (snd (sleep 1 (polled c w))))))
               = (Raise client_error,
                  polled c (snd (sleep 1 (polled c (snd (sleep 1 (polled c w)))))))).
  { apply attempt_transport_failure; [exact Ht | exact Hc |].
    simpl. rewrite !length_app. simpl.
    now replace (length (sent w) + 1 + 1) with (2 + length (sent w)) by lia. }
  now rewrite try_get_result_decorated, retry_on_timeout_3, A1, A2, A3.
Qed.

(** An operation the service refuses three times: the third refusal is the
    one the caller sees. *)
Example third_failure_propagates :
  fst (try_get_result Html.charref_sub 0
         (ticket_world fresh_ticket
            [Body "ERROR_ONE"; TransportFailure; Body "ERROR_THREE"]))
  = Raise (Exc OperationFailedError "Operation failed: 'ERROR_THREE'").
Proof. reflexivity. Qed.

(** C5, as the code has it: when the body of the reply holds the delimiter
    and its unescaped form holds exactly one, between [pre] and [post],
    [try_get_result] on a pending ticket returns [post], the text after the
    delimiter of the unescaped body, and stores it as the cached result of
    the ticket, after one request and no sleep. *)
Theorem poll_success_caches_text (charref_sub : string -> string) (t : loc)
    (w : World) (c : Captcha) (body pre post : string) :
  captchas w !! t = Some c ->
  _cached_result c = None ->
  net w (length (sent w)) = Body body ->
  PyStr.contains "|" body = true ->
  unescape charref_sub body = (pre ++ String "|" post)%string ->
  PyStr.contains "|" pre = false ->
  PyStr.contains "|" post = false ->
  let r := try_get_result charref_sub t w in
  fst r = Return (Some post)
  /\ captchas (snd r) !! t =
       Some (mkCaptcha (api c) (captcha_id c) (Some post) (_reported_bad c))
  /\ sent (snd r) = sent w ++ [mkRequest GET RES_URL (Params (poll_params c))]
  /\ slept (snd r) = slept w.
Proof.
  intros Ht Hc Hnet Hin Hun Hpre Hpost r.
  assert (E : r = (Return (Some post), resolved t c post (polled c w))).
  { subst r. apply try_get_result_returns_at_once.
    rewrite (attempt_body charref_sub t c w Ht body Hc Hnet), Hin, Hun.
    now rewrite (split_once _ _ _ Hpre Hpost). }
  rewrite E. simpl. repeat split.
  apply list_lookup_insert_eq. eapply lookup_lt_Some, Ht.
Qed.

Lemma poll_success_caches_text_witness :
  let w := ticket_world fresh_ticket [Body "OK|Tom &amp; Jerry"] in
  let r := try_get_result Html.charref_sub 0 w in
  fst r = Return (Some "Tom & Jerry")
  /\ captchas (snd r) !! 0 =
       Some (mkCaptcha demo_api "77" (Some "Tom & Jerry") false).
Proof.
  intros w r.
  destruct (poll_success_caches_text Html.charref_sub 0 w fresh_ticket
              "OK|Tom &amp; Jerry" "OK" "Tom & Jerry"
              eq_refl eq_refl eq_refl eq_refl eq_refl eq_refl eq_refl)
    as (H1 & H2 & _).
  split; assumption.
Defined.

(** A body whose unescaped form holds two delimiters or more cannot be
    unpacked into two parts: the attempt raises [ValueError]. *)
Lemma attempt_too_many_parts charref_sub t w c body :
  captchas w !! t = Some c ->
  _cached_result c = None ->
  net w (length (sent w)) = Body body ->
  PyStr.contains "|" body = true ->
  2 <= PyStr.count "|" (unescape charref_sub body) ->
  try_get_result_body charref_sub t w =
    (Raise (Exc ValueError "too many values to unpack (expected 2)"),
     polled c w).
Proof.
  intros Ht Hc Hnet Hin Hcount.
  rewrite (attempt_body charref_sub t c w Ht body Hc Hnet), Hin.
  destruct (split_many _ _ Hcount) as (x & y & z & rest & ->). reflexivity.
Qed.

(** The claim C5 fails where the unescaped body has a second delimiter,
    decoded from a character reference or written as such: with such a reply
    to each of the three attempts, [try_get_result] raises
    [ResponseFormatError] and the ticket stays without a cached result. *)
Lemma poll_success_counterexample :
  let body1 := "OK|a&#124;b" in
  let body2 := "OK|a|b" in
  let r1 := try_get_result Html.charref_sub 0
              (ticket_world fresh_ticket [Body body1; Body body1; Body body1]) in
  let r2 := try_get_result Html.charref_sub 0
              (ticket_world fresh_ticket [Body body2; Body body2; Body body2]) in
  PyStr.contains "|" body1 = true
  /\ unescape Html.charref_sub "a&#124;b" = "a|b"
  /\ fst r1 = Raise format_error
  /\ fst r1 <> Return (Some "a|b")
  /\ captchas (snd r1) !! 0 = Some fresh_ticket
  /\ PyStr.contains "|" body2 = true
  /\ fst r2 = Raise format_error
  /\ fst r2 <> Return (Some "a|b")
  /\ captchas (snd r2) !! 0 = Some fresh_ticket.
Proof. vm_compute. repeat split; discriminate. Qed.

(** ** [repr] keeps the string

    The characters of [repr s] can be read back one by one, so two strings
    with the same [repr] are the same string. *)

Lemma unrepr_repr_char quote c rest :
  quote = PyStr.single_quote \/ quote = PyStr.double_quote ->
  unrepr_char quote (PyStr.repr_char quote c ++ rest) = Some (c, rest).
Proof.
  intros [-> | ->];
    destruct c as [[] [] [] [] [] [] [] []]; reflexivity.
Qed.

Lemma string_app_assoc (a b c : string) :
  ((a ++ b) ++ c)%string = (a ++ (b ++ c))%string.
Proof.
  induction a as [|x a IH]; [reflexivity|].
  change (String x ((a ++ b) ++ c) = String x (a ++ (b ++ c)))%string.
  now rewrite IH.
Qed.

Lemma unrepr_closing_quote quote rest :
  unrepr_char quote (String quote rest) = None.
Proof. unfold unrepr_char. now rewrite Ascii.eqb_refl. Qed.

Lemma repr_body_injective quote s1 s2 :
  quote = PyStr.single_quote \/ quote = PyStr.double_quote ->
  (PyStr.repr_body quote s1 ++ String quote EmptyString)%string =
  (PyStr.repr_body quote s2 ++ String quote EmptyString)%string ->
  s1 = s2.
Proof.
  intros Hq. revert s2.
  induction s1 as [|c1 s1 IH]; intros [|c2 s2] H;
    cbn [PyStr.repr_body] in H;
    try change (EmptyString ++ String quote EmptyString)%string
      with (String quote EmptyString) in H;
    apply (f_equal (unrepr_char quote)) in H;
    rewrite ?string_app_assoc, ?(unrepr_repr_char _ _ _ Hq),
      ?unrepr_closing_quote in H.
  - reflexivity.
  - discriminate.
  - discriminate.
  - injection H as -> H. f_equal. now apply IH.
Qed.

Lemma repr_injective s1 s2 : PyStr.repr s1 = PyStr.repr s2 -> s1 = s2.
Proof.
  unfold PyStr.repr.
  destruct (PyStr.contains PyStr.single_quote s1
            && negb (PyStr.contains PyStr.double_quote s1));
    destruct (PyStr.contains PyStr.single_quote s2
              && negb (PyStr.contains PyStr.double_quote s2));
    intros H; try discriminate H; injection H as H.
  - apply (repr_body_injective PyStr.double_quote); [now right | exact H].
  - apply (repr_body_injective PyStr.single_quote); [now left | exact H].
Qed.

Lemma string_app_cancel_l (p a b : string) :
  (p ++ a)%string = (p ++ b)%string -> a = b.
Proof.
  induction p as [|x p IH]; intros H; [exact H|].
  change (String x (p ++ a) = String x (p ++ b))%string in H.
  injection H as H. now apply IH.
Qed.

(** The exception [solve] and [try_get_result] raise for a body tells the
    body. *)
Lemma operation_failed_injective body1 body2 :
  operation_failed body1 = operation_failed body2 -> body1 = body2.
Proof.
  unfold operation_failed, PyStr.format_r. intros H.
  apply (f_equal exc_args) in H. cbn [exc_args] in H.
  apply string_app_cancel_l in H. now apply repr_injective.
Qed.

(** ** Submitting a captcha *)

(** The form object made last, [fields] so far, gets more fields. *)
Lemma add_field_fresh l fields name value w :
  forms w = l ++ [fields] ->
  add_field (length l) name value w =
    (Return tt, with_forms (l ++ [fields ++ [(name, value)]]) w).
Proof.
  intros E. unfold add_field. now rewrite E, total_lookup_alloc, insert_alloc.
Qed.

Lemma add_fields_fresh l fields items w :
  forms w = l ++ [fields] ->
  add_fields (length l) items w =
    (Return tt, with_forms (l ++ [fields ++ map text_field items]) w).
Proof.
  revert fields w. induction items as [|[k v] items IH]; intros fields w E.
  - destruct w. simpl in *. subst. now rewrite app_nil_r.
  - cbn [add_fields]. coro_unfold.
    rewrite (add_field_fresh l fields _ _ _ E).
    rewrite (IH (fields ++ [(k, FText v)])) by reflexivity.
    simpl. now rewrite <- app_assoc.
Qed.

Lemma post_fresh self url l fields w :
  forms w = l ++ [fields] ->
  post self url (length l) w =
    (response_of (net w (length (sent w))),
     with_sent
       (sent w ++ [mkRequest POST url
                     (Data (fields ++ [("key", FText (api_key self))]))])
       (with_forms (l ++ [fields ++ [("key", FText (api_key self))]]) w)).
Proof.
  intros E. rewrite post_spec by (rewrite E, length_app; simpl; lia).
  unfold after_post. now rewrite E, total_lookup_alloc, insert_alloc.
Qed.

Lemma solve_body_spec self file captcha_parameters w raw_data :
  read_file file w = (Return raw_data, w) ->
  solve_body self file captcha_parameters w =
  let w' := submitted self raw_data captcha_parameters w in
  match net w (length (sent w)) with
  | TransportFailure => (Raise client_error, w')
  | Body body =>
      if PyStr.contains "|" body then
        match PyStr.split "|" body with
        | [_; captcha_id] =>
            (Return (length (captchas w)),
             with_captchas
               (captchas w ++ [mkCaptcha self captcha_id None false]) w')
        | _ :: _ :: _ :: _ =>
            (Raise (Exc ValueError "too many values to unpack (expected 2)"), w')
        | _ =>
            (Raise (Exc ValueError "not enough values to unpack (expected 2)"),
             w')
        end
      else (Raise (operation_failed body), w')
  end.
Proof.
  intros Hread. unfold solve_body. coro_unfold. rewrite Hread.
  unfold new_FormData.
  rewrite (add_fields_fresh (forms w) []) by reflexivity.
  erewrite (add_field_fresh (forms w)) by reflexivity.
  erewrite (post_fresh self REQ_URL (forms w)) by reflexivity.
  unfold submitted, submitted_fields. simpl.
  rewrite <- !app_assoc. simpl.
  destruct (net w (length (sent w))) as [body|]; [|reflexivity].
  simpl. destruct (PyStr.contains "|" body); [|reflexivity].
  destruct (PyStr.split "|" body) as [|a [|b [|x rest]]]; reflexivity.
Qed.

(** What the two decorators of [solve] make of an exception. *)
Lemma solve_decorated self file captcha_parameters w :
  solve self file captcha_parameters w =
  match solve_body self file captcha_parameters w with
  | (Return ticket, w') => (Return ticket, w')
  | (Raise e, w') =>
      (Raise (if isinstance e IndexError || isinstance e ValueError
              then format_error
              else if isinstance e ClientError then communication_error
              else e), w')
  end.
Proof.
  unfold solve, _rewrite_http_to_com_err, _rewrite_to_format_err.
  destruct (solve_body _ _ _ w) as [[ticket|e] w']; [reflexivity|].
  simpl. rewrite orb_false_r.
  destruct (isinstance e IndexError || isinstance e ValueError); [reflexivity|].
  destruct (isinstance e ClientError); reflexivity.
Qed.

(** C3, as the code has it: when the body of the reply holds the delimiter
    exactly once, between [pre] and [post], [solve] returns a new ticket
    whose id is [post], the text after the delimiter, with no cached result
    and not reported bad. *)
Theorem solve_returns_ticket (self : AZCaptchaApi) (file : file_arg)
    (captcha_parameters : option dict) (w : World)
    (raw_data pre post : string) :
  read_file file w = (Return raw_data, w) ->
  net w (length (sent w)) = Body (pre ++ String "|" post)%string ->
  PyStr.contains "|" pre = false ->
  PyStr.contains "|" post = false ->
  let r := solve self file captcha_parameters w in
  fst r = Return (length (captchas w))
  /\ captchas (snd r) = captchas w ++ [mkCaptcha self post None false].
Proof.
  intros Hread Hnet Hpre Hpost r. subst r.
  rewrite solve_decorated, (solve_body_spec _ _ _ _ _ Hread), Hnet.
  cbv zeta. rewrite contains_delimited, (split_once _ _ _ Hpre Hpost).
  split; reflexivity.
Qed.

Lemma solve_returns_ticket_witness :
  let r := solve demo_api (FileObject "image bytes") None
             (demo_world [Body "OK|2122988149"]) in
  fst r = Return 0
  /\ captchas (snd r) = [mkCaptcha demo_api "2122988149" None false].
Proof.
  exact (solve_returns_ticket demo_api (FileObject "image bytes") None
           (demo_world [Body "OK|2122988149"]) "image bytes" "OK" "2122988149"
           eq_refl eq_refl eq_refl eq_refl).
Defined.

(** Two delimiters or more: the unpacking raises [ValueError], which
    [solve] raises as [ResponseFormatError]; no ticket is made. *)
Lemma solve_too_many_parts self file captcha_parameters w raw_data body :
  read_file file w = (Return raw_data, w) ->
  net w (length (sent w)) = Body body ->
  2 <= PyStr.count "|" body ->
  fst (solve self file captcha_parameters w) = Raise format_error
  /\ captchas (snd (solve self file captcha_parameters w)) = captchas w.
Proof.
  intros Hread Hnet Hcount.
  rewrite solve_decorated, (solve_body_spec _ _ _ _ _ Hread), Hnet.
  cbv zeta.
  assert (Hin : PyStr.contains "|" body = true)
    by (apply contains_count; lia).
  rewrite Hin.
  destruct (split_many _ _ Hcount) as (x & y & z & rest & ->).
  split; reflexivity.
Qed.

(** The claim C3 fails on a body with two delimiters: [solve] raises
    [ResponseFormatError] and returns no ticket. *)
Lemma solve_returns_ticket_counterexample :
  let r := solve demo_api (FileObject "image bytes") None
             (demo_world [Body "OK|21|22"]) in
  PyStr.contains "|" "OK|21|22" = true
  /\ fst r = Raise format_error
  /\ captchas (snd r) = [].
Proof. repeat split. Qed.

(** C9: when the body of the reply holds no delimiter, [solve] raises
    [OperationFailedError] with the message ["Operation failed: %r"] filled
    with the body, and makes no ticket; the message is that of no other
    body, so the exception carries the body. *)
Theorem solve_fails_without_delimiter (self : AZCaptchaApi) (file : file_arg)
    (captcha_parameters : option dict) (w : World) (raw_data body : string) :
  read_file file w = (Return raw_data, w) ->
  net w (length (sent w)) = Body body ->
  PyStr.contains "|" body = false ->
  let r := solve self file captcha_parameters w in
  fst r = Raise (Exc OperationFailedError
                   ("Operation failed: " ++ PyStr.repr body)%string)
  /\ (forall other : string,
        fst r = Raise (operation_failed other) -> other = body)
  /\ captchas (snd r) = captchas w.
Proof.
  intros Hread Hnet Hin r. subst r.
  rewrite solve_decorated, (solve_body_spec _ _ _ _ _ Hread), Hnet.
  cbv zeta. rewrite Hin. split; [reflexivity | split; [|reflexivity]].
  intros other H.
  change (@Raise loc (operation_failed body) = Raise (operation_failed other))
    in H.
  symmetry. apply operation_failed_injective. congruence.
Qed.

Lemma solve_fails_without_delimiter_witness :
  let r := solve demo_api (FileObject "image bytes") None
             (demo_world [Body "ERROR_ZERO_BALANCE"]) in
  fst r = Raise (Exc OperationFailedError
                   "Operation failed: 'ERROR_ZERO_BALANCE'")
  /\ captchas (snd r) = [].
Proof.
  destruct (solve_fails_without_delimiter demo_api (FileObject "image bytes")
              None (demo_world [Body "ERROR_ZERO_BALANCE"]) "image bytes"
              "ERROR_ZERO_BALANCE" eq_refl eq_refl eq_refl)
    as (H1 & _ & H2).
  split; assumption.
Defined.

(** C4, as the code has it: the form [solve] sends holds the caller's
    parameters alone when a dict with at least one entry is given, and the
    default [method = post] alone when no dict or an empty dict is given;
    the file and the key follow.  The default is replaced, not merged. *)
Theorem solve_sends_parameters (self : AZCaptchaApi) (file : file_arg)
    (captcha_parameters : option dict) (w : World) (raw_data : string) :
  read_file file w = (Return raw_data, w) ->
  let parameters :=
    match captcha_parameters with
    | Some (kv :: d) => map text_field (kv :: d)
    | Some [] | None => [("method", FText "post")]
    end in
  sent (snd (solve self file captcha_parameters w)) =
    sent w ++ [mkRequest POST REQ_URL
                 (Data (parameters ++ [("file", FBytesIO raw_data);
                                       ("key", FText (api_key self))]))].
Proof.
  intros Hread parameters.
  rewrite solve_decorated, (solve_body_spec _ _ _ _ _ Hread). cbv zeta.
  assert (E : sent (submitted self raw_data captcha_parameters w) =
              sent w ++ [mkRequest POST REQ_URL
                 (Data (parameters ++ [("file", FBytesIO raw_data);
                                       ("key", FText (api_key self))]))]).
  { unfold submitted, submitted_fields. subst parameters.
    destruct captcha_parameters as [[|kv d]|]; reflexivity. }
  destruct (net w (length (sent w))) as [body|]; [|exact E].
  destruct (PyStr.contains "|" body); [|exact E].
  destruct (PyStr.split "|" body) as [|a [|b [|x rest]]]; exact E.
Qed.

Lemma solve_sends_parameters_witness :
  sent (snd (solve demo_api (Path "captcha.png") None
               (mkWorld [] [] [] (fun _ => Some "image bytes")
                  (fun _ => Body "OK|1") [] [])))
  = [mkRequest POST REQ_URL
       (Data [("method", FText "post"); ("file", FBytesIO "image bytes");
              ("key", FText "KEY")])].
Proof.
  exact (solve_sends_parameters demo_api (Path "captcha.png") None
           (mkWorld [] [] [] (fun _ => Some "image bytes")
              (fun _ => Body "OK|1") [] [])
           "image bytes" eq_refl).
Defined.

(** The claim C4 fails on the parameters [{'phrase': '1'}]: merged with the
    default they would hold [method = post], the form that is sent does
    not. *)
Lemma solve_sends_parameters_counterexample :
  let parameters := [("phrase", "1")] in
  let r := solve demo_api (FileObject "image bytes") (Some parameters)
             (demo_world [Body "OK|1"]) in
  Dict.merge default_parameters parameters =
    [("method", "post"); ("phrase", "1")]
  /\ sent (snd r) =
       [mkRequest POST REQ_URL
          (Data [("phrase", FText "1"); ("file", FBytesIO "image bytes");
                 ("key", FText "KEY")])]
  /\ sent (snd r) <>
       [mkRequest POST REQ_URL
          (Data (map text_field (Dict.merge default_parameters parameters)
                 ++ [("file", FBytesIO "image bytes"); ("key", FText "KEY")]))].
Proof. repeat split. discriminate. Qed.

(** ** Reporting a bad result *)

(** [resp.text] is a bound method: it differs from every string. *)
Lemma text_attr_differs resp s : py_ne (text_attr resp) (PyStr s) = true.
Proof. reflexivity. Qed.

(** [get] on the dict object made last. *)
Lemma after_get_alloc self url (d : dict) w :
  after_get self url (length (dicts w)) (with_dicts (dicts w ++ [d]) w) =
  with_sent
    (sent w ++ [mkRequest GET url (Params (Dict.set "key" (api_key self) d))])
    (with_dicts (dicts w ++ [Dict.set "key" (api_key self) d]) w).
Proof.
  unfold after_get. simpl. now rewrite total_lookup_alloc, insert_alloc.
Qed.

(** On a ticket with a cached result and not reported bad, [report_bad]
    issues its request and then raises, whatever comes back. *)
Lemma report_bad_spec t w c v :
  captchas w !! t = Some c ->
  _cached_result c = Some v ->
  _reported_bad c = false ->
  report_bad t w =
    (match net w (length (sent w)) with
     | Body _ => Raise unexpected_api_response
     | TransportFailure => Raise communication_error
     end, reported c w).
Proof.
  intros Ht Hv Hr. unfold report_bad, _rewrite_http_to_com_err, report_bad_body.
  coro_unfold. rewrite (total_lookup_at _ _ _ Ht), Hv, Hr.
  unfold new_dict. rewrite get_spec by (simpl; rewrite length_app; simpl; lia).
  rewrite after_get_alloc. simpl.
  destruct (net w (length (sent w))); reflexivity.
Qed.

(** C2 on the code: on a ticket with a cached result and not reported bad,
    [report_bad] issues a GET with [action = reportbad], the id of the ticket
    and the key, and then raises [ResponseFormatError] for every body that
    comes back, the body [OK_REPORT_RECORDED] included: the comparison is
    made with the method [resp.text], not with the text of the response. *)
Theorem report_bad_rejects_every_body (t : loc) (w : World) (c : Captcha)
    (v body : string) :
  captchas w !! t = Some c ->
  _cached_result c = Some v ->
  _reported_bad c = false ->
  net w (length (sent w)) = Body body ->
  let r := report_bad t w in
  fst r = Raise unexpected_api_response
  /\ sent (snd r) =
       sent w ++ [mkRequest GET RES_URL
                    (Params [("action", "reportbad"); ("id", captcha_id c);
                             ("key", api_key (api c))])].
Proof.
  intros Ht Hv Hr Hnet r. subst r.
  rewrite (report_bad_spec t w c v Ht Hv Hr), Hnet. split; reflexivity.
Qed.

Lemma report_bad_rejects_every_body_witness :
  let r := report_bad 0 (ticket_world solved_ticket [Body "OK_REPORT_RECORDED"]) in
  fst r = Raise unexpected_api_response
  /\ sent (snd r) =
       [mkRequest GET RES_URL
          (Params [("action", "reportbad"); ("id", "77"); ("key", "KEY")])].
Proof.
  exact (report_bad_rejects_every_body 0
           (ticket_world solved_ticket [Body "OK_REPORT_RECORDED"])
           solved_ticket "abc123" "OK_REPORT_RECORDED"
           eq_refl eq_refl eq_refl eq_refl).
Defined.

(** C1 on the code: on a ticket with a cached result and not reported bad,
    a call of [report_bad] leaves every ticket as it was, [_reported_bad]
    still false, whatever the network did; a second call therefore issues a
    second request and does not raise the double-report [ValueError]. *)
Theorem report_bad_twice (t : loc) (w : World) (c : Captcha) (v : string) :
  captchas w !! t = Some c ->
  _cached_result c = Some v ->
  _reported_bad c = false ->
  let r1 := report_bad t w in
  let r2 := report_bad t (snd r1) in
  captchas (snd r1) = captchas w
  /\ fst r2 <> Raise double_report
  /\ sent (snd r2) =
       sent w ++ [mkRequest GET RES_URL (Params (report_params c));
                  mkRequest GET RES_URL (Params (report_params c))].
Proof.
  intros Ht Hv Hr r1 r2.
  assert (E1 : snd r1 = reported c w)
    by (subst r1; now rewrite (report_bad_spec t w c v Ht Hv Hr)).
  assert (E2 : r2 = (match net (reported c w) (length (sent (reported c w))) with
                     | Body _ => Raise unexpected_api_response
                     | TransportFailure => Raise communication_error
                     end, reported c (reported c w))).
  { subst r2. rewrite E1. now apply (report_bad_spec t (reported c w) c v). }
  rewrite E1, E2. simpl. repeat split.
  - destruct (net w _); discriminate.
  - now rewrite <- app_assoc.
Qed.

Lemma report_bad_twice_witness :
  let w := ticket_world solved_ticket
             [Body "OK_REPORT_RECORDED"; Body "OK_REPORT_RECORDED"] in
  let r1 := report_bad 0 w in
  let r2 := report_bad 0 (snd r1) in
  captchas (snd r1) = [solved_ticket]
  /\ fst r2 <> Raise double_report
  /\ length (sent (snd r2)) = 2.
Proof.
  intros w r1 r2.
  destruct (report_bad_twice 0 w solved_ticket "abc123" eq_refl eq_refl eq_refl)
    as (H1 & H2 & H3).
  split; [exact H1 | split; [exact H2 |]].
  exact (f_equal (@length request) H3).
Defined.

(** The guards of [report_bad] raise before any request: on a ticket
    without a cached result, and on a ticket whose [_reported_bad] is
    set. *)
Lemma report_bad_usage_errors t w c :
  captchas w !! t = Some c ->
  (_cached_result c = None -> report_bad t w = (Raise not_yet_retrieved, w))
  /\ (forall v, _cached_result c = Some v -> _reported_bad c = true ->
      report_bad t w = (Raise double_report, w)).
Proof.
  intros Ht. unfold report_bad, _rewrite_http_to_com_err, report_bad_body.
  coro_unfold. rewrite (total_lookup_at _ _ _ Ht).
  split; [intros -> | intros v -> ->]; reflexivity.
Qed.

(** ** The account methods: [get_load], [get_stats], [get_balance] *)

Lemma fresh_get self url (d : dict) w :
  get self url (length (dicts w)) (with_dicts (dicts w ++ [d]) w) =
    (response_of (net w (length (sent w))),
     requested url (Dict.set "key" (api_key self) d) w).
Proof.
  rewrite get_spec by (simpl; rewrite length_app; simpl; lia).
  now rewrite after_get_alloc.
Qed.




Example get_balance_of_decimal :
  fst (get_balance _ plain_decimal demo_api (demo_world [Body "12.50"]))
  = Return (1250%N, 2).
Proof. reflexivity. Qed.

Example get_balance_of_text :
  fst (get_balance _ plain_decimal demo_api (demo_world [Body "not-a-number"]))
  = Raise format_error.
Proof. reflexivity. Qed.

(** ** The decorators *)

(** X4: what leaves [_rewrite_http_to_com_err] as an exception is never an
    instance of [ClientError]: it is the [CommunicationError] of the
    decorator, or the exception of the function itself; the world is the
    one the function left. *)
Theorem no_client_error_escapes {A : Type} (func : Coro A) (w w' : World)
    (e : exc) :
  _rewrite_http_to_com_err func w = (Raise e, w') ->
  isinstance e ClientError = false
  /\ (e = communication_error \/ fst (func w) = Raise e)
  /\ snd (func w) = w'.
Proof.
  unfold _rewrite_http_to_com_err.
  destruct (func w) as [[a|e0] w0]; [discriminate|].
  destruct (isinstance e0 ClientError) eqn:E; intros [= <- <-].
  - repeat split. now left.
  - repeat split; [exact E | now right].
Qed.

Lemma no_client_error_escapes_witness :
  isinstance communication_error ClientError = false
  /\ (communication_error = communication_error
      \/ fst (session_request GET LOAD_URL (Params [])
                (demo_world [TransportFailure]))
         = Raise communication_error)
  /\ snd (session_request GET LOAD_URL (Params [])
            (demo_world [TransportFailure]))
     = with_sent [mkRequest GET LOAD_URL (Params [])]
         (demo_world [TransportFailure]).
Proof.
  exact (no_client_error_escapes
           (session_request GET LOAD_URL (Params []))
           (demo_world [TransportFailure]) _ communication_error eq_refl).
Defined.

(** X5: when none of the listed classes is a base class of
    [ResponseFormatError], what leaves [_rewrite_to_format_err] as an
    exception is an instance of none of them: it is the
    [ResponseFormatError] of the decorator, or the exception of the function
    itself; the world is the one the function left. *)
Theorem no_listed_exception_escapes {A : Type} (exception_types : list exc_class)
    (func : Coro A) (w w' : World) (e : exc) :
  existsb (isinstance format_error) exception_types = false ->
  _rewrite_to_format_err exception_types func w = (Raise e, w') ->
  existsb (isinstance e) exception_types = false
  /\ (e = format_error \/ fst (func w) = Raise e)
  /\ snd (func w) = w'.
Proof.
  intros Hfmt. unfold _rewrite_to_format_err.
  destruct (func w) as [[a|e0] w0]; [discriminate|].
  destruct (existsb (isinstance e0) exception_types) eqn:E; intros [= <- <-].
  - repeat split; [exact Hfmt | now left].
  - repeat split; [exact E | now right].
Qed.

Lemma no_listed_exception_escapes_witness :
  existsb (isinstance format_error) [IndexError; ValueError] = false
  /\ (format_error = format_error
      \/ fst (unpack2 ["OK"; "21"; "22"] (demo_world [])) = Raise format_error)
  /\ snd (unpack2 ["OK"; "21"; "22"] (demo_world [])) = demo_world [].
Proof.
  exact (no_listed_exception_escapes [IndexError; ValueError]
           (unpack2 ["OK"; "21"; "22"]) (demo_world []) _ format_error
           eq_refl eq_refl).
Defined.

(** The other side of the condition: with [AZCaptchaApiError] in the list,
    the exception the decorator raises is itself an instance of a listed
    class. *)
Example format_error_of_a_base_class :
  existsb (isinstance format_error) [AZCaptchaApiError] = true.
Proof. reflexivity. Qed.

(** ** The retry wrapper, for any function and any number of retries *)

Lemma retry_loop_outcome {A} (func : Coro (option A)) max_retries wait_time
    fuel retries w :
  retries < max_retries ->
  fuel = max_retries - retries ->
  exists w0, retry_loop fuel max_retries wait_time func retries w = func w0.
Proof.
  revert retries w. induction fuel as [|fuel IH]; intros retries w Hlt Hfuel;
    [lia|].
  cbn [retry_loop].
  destruct (Nat.ltb_spec retries max_retries) as [_|]; [|lia].
  destruct (func w) as [[result|e] w'] eqn:E.
  - exists w. now rewrite E.
  - destruct (Nat.eqb_spec (S retries) max_retries) as [Heq|Hne].
    + exists w. now rewrite E.
    + destruct (sleep wait_time w') as [u w''].
      apply IH; lia.
Qed.

(** X6: the wrapper of [retry_on_timeout] adds no outcome of its own: with
    no retries allowed it returns [None] and leaves the world as it was,
    without running the function; otherwise it ends exactly as one run of
    the function ends, value or exception and world. *)
Theorem retry_outcome_is_an_attempt {A : Type} (func : Coro (option A))
    (max_retries wait_time : nat) (w : World) :
  match max_retries with
  | 0 => retry_on_timeout 0 wait_time func w = (Return None, w)
  | S _ =>
      exists w0, retry_on_timeout max_retries wait_time func w = func w0
  end.
Proof.
  destruct max_retries as [|n]; [reflexivity|].
  unfold retry_on_timeout. apply retry_loop_outcome; lia.
Qed.

Lemma retry_loop_sleeps {A} (func : Coro (option A)) max_retries wait_time :
  (forall w, slept (snd (func w)) = slept w) ->
  forall fuel retries w,
    fuel = max_retries - retries ->
    exists k,
      k <= fuel - 1
      /\ slept (snd (retry_loop fuel max_retries wait_time func retries w))
         = slept w ++ repeat wait_time k.
Proof.
  intros Hfunc. induction fuel as [|fuel IH]; intros retries w Hfuel.
  - exists 0. split; [lia|]. simpl. now rewrite app_nil_r.
  - cbn [retry_loop].
    destruct (retries <? max_retries)%nat;
      [|exists 0; split; [lia|]; simpl; now rewrite app_nil_r].
    pose proof (Hfunc w) as Hw.
    destruct (func w) as [[result|e] w']; cbn [snd] in Hw.
    + exists 0. split; [lia|]. simpl. now rewrite app_nil_r.
    + destruct (Nat.eqb_spec (S retries) max_retries) as [Heq|Hne].
      * exists 0. split; [lia|]. simpl. now rewrite app_nil_r.
      * unfold sleep.
        destruct (IH (S retries) (with_slept (slept w' ++ [wait_time]) w'))
          as (k & Hk & Hs); [lia|].
        exists (S k). split; [lia|].
        rewrite Hs. simpl. rewrite Hw, <- app_assoc. reflexivity.
Qed.

(** X7: around a function that does not sleep itself, the wrapper of
    [retry_on_timeout] sleeps [wait_time] seconds at a time and at most
    [max_retries - 1] times. *)
Theorem retry_sleeps_are_bounded {A : Type} (func : Coro (option A))
    (max_retries wait_time : nat) (w : World) :
  (forall w0, slept (snd (func w0)) = slept w0) ->
  exists k,
    k <= max_retries - 1
    /\ slept (snd (retry_on_timeout max_retries wait_time func w))
       = slept w ++ repeat wait_time k.
Proof.
  intros Hfunc. unfold retry_on_timeout.
  apply (retry_loop_sleeps func max_retries wait_time Hfunc); lia.
Qed.

Lemma retry_sleeps_are_bounded_witness :
  exists k,
    k <= 4
    /\ slept (snd (retry_on_timeout 5 2 always_refused (demo_world [])))
       = repeat 2 k.
Proof.
  exact (retry_sleeps_are_bounded always_refused 5 2 (demo_world [])
           (fun w0 => eq_refl)).
Defined.

Example retry_sleeps_four_times :
  retry_on_timeout 5 2 always_refused (demo_world [])
  = (Raise (operation_failed "ERROR_WRONG_CAPTCHA_ID"),
     with_slept [2; 2; 2; 2] (demo_world [])).
Proof. reflexivity. Qed.

(** ** [try_get_result] on a ticket without a cached result *)

Lemma polled_and_slept_sent c seconds w :
  length (sent (polled_and_slept c seconds w)) = S (length (sent w)).
Proof. simpl. rewrite length_app. simpl. lia. Qed.

Section Reading.

Variable charref_sub : string -> string.
Variables (t : loc) (c : Captcha).
Hypothesis pending : _cached_result c = None.

Lemma attempt_reads w :
  captchas w !! t = Some c ->
  try_get_result_body charref_sub t w =
    match read_reply charref_sub (net w (length (sent w))) with
    | Ready captcha_text =>
        (Return (Some captcha_text), resolved t c captcha_text (polled c w))
    | NotReady => (Return None, polled c w)
    | Failed e => (Raise e, polled c w)
    end.
Proof.
  intros Ht. destruct (net w (length (sent w))) as [body|] eqn:Hnet.
  - rewrite (attempt_body charref_sub t c w Ht body pending Hnet).
    unfold read_reply. destruct (PyStr.contains "|" body).
    + destruct (PyStr.split "|" (unescape charref_sub body))
        as [|a [|b [|x l]]]; reflexivity.
    + destruct (is_not_ready body); reflexivity.
  - now rewrite (attempt_transport_failure charref_sub t c w Ht pending Hnet).
Qed.

(** The whole call, by the readings of the replies to its attempts. *)
Lemma try_get_result_reads w :
  captchas w !! t = Some c ->
  let n := length (sent w) in
  let w1 := polled_and_slept c 1 w in
  let w2 := polled_and_slept c 1 w1 in
  try_get_result charref_sub t w =
    match read_reply charref_sub (net w n) with
    | Ready x => (Return (Some x), resolved t c x (polled c w))
    | NotReady => (Return None, polled c w)
    | Failed _ =>
        match read_reply charref_sub (net w (S n)) with
        | Ready x => (Return (Some x), resolved t c x (polled c w1))
        | NotReady => (Return None, polled c w1)
        | Failed _ =>
            match read_reply charref_sub (net w (S (S n))) with
            | Ready x => (Return (Some x), resolved t c x (polled c w2))
            | NotReady => (Return None, polled c w2)
            | Failed e => (Raise (rewritten e), polled c w2)
            end
        end
    end.
Proof.
  intros Ht n w1 w2.
  assert (L1 : length (sent w1) = S n)
    by (subst w1 n; apply polled_and_slept_sent).
  assert (L2 : length (sent w2) = S (S n))
    by (subst w2; now rewrite polled_and_slept_sent, L1).
  rewrite try_get_result_decorated, retry_on_timeout_3.
  rewrite (attempt_reads w Ht). fold n.
  destruct (read_reply charref_sub (net w n)); try reflexivity.
  fold (polled_and_slept c 1 w). fold w1.
  rewrite (attempt_reads w1 Ht), L1.
  change (net w1) with (net w).
  destruct (read_reply charref_sub (net w (S n))); try reflexivity.
  fold (polled_and_slept c 1 w1). fold w2.
  rewrite (attempt_reads w2 Ht), L2.
  change (net w2) with (net w).
  destruct (read_reply charref_sub (net w (S (S n)))); reflexivity.
Qed.

End Reading.




Ltac other_ticket :=
  intros; simpl; apply list_lookup_insert_ne; congruence.

Ltac cost_case k :=
  exists k; simpl; rewrite <- ?app_assoc, ?app_nil_r;
  split; [lia | split; reflexivity].

(** X9: one call of [try_get_result] on a ticket that exists issues at most
    three requests, each the poll of that ticket, and sleeps one second
    between two of them and at no other time; it changes no other ticket. *)
Theorem try_get_result_cost (charref_sub : string -> string) (t : loc)
    (w : World) (c : Captcha) :
  captchas w !! t = Some c ->
  let w' := snd (try_get_result charref_sub t w) in
  (exists k,
     k <= 3
     /\ sent w' = sent w ++ repeat (poll_request c) k
     /\ slept w' = slept w ++ repeat 1 (k - 1))
  /\ (forall t', t' <> t -> captchas w' !! t' = captchas w !! t').
Proof.
  intros Ht w'. subst w'. destruct (_cached_result c) as [v|] eqn:Hc.
  - rewrite (try_get_result_returns_at_once _ _ _ _ _
               (attempt_cached charref_sub t c w Ht v Hc)).
    split; [cost_case 0 | reflexivity].
  - rewrite (try_get_result_reads charref_sub t c Hc w Ht). cbv zeta.
    destruct (read_reply _ (net w (length (sent w))));
      [split; [cost_case 1 | other_ticket]
      |split; [cost_case 1 | reflexivity]|].
    destruct (read_reply _ (net w (S (length (sent w)))));
      [split; [cost_case 2 | other_ticket]
      |split; [cost_case 2 | reflexivity]|].
    destruct (read_reply _ (net w (S (S (length (sent w))))));
      [split; [cost_case 3 | other_ticket]
      |split; [cost_case 3 | reflexivity]
      |split; [cost_case 3 | reflexivity]].
Qed.

Lemma try_get_result_cost_witness :
  let w := ticket_world fresh_ticket
             [TransportFailure; Body "ERROR"; Body "OK|a|b"] in
  let w' := snd (try_get_result Html.charref_sub 0 w) in
  (exists k,
     k <= 3
     /\ sent w' = repeat (poll_request fresh_ticket) k
     /\ slept w' = repeat 1 (k - 1))
  /\ (forall t', t' <> 0 -> captchas w' !! t' = [fresh_ticket] !! t').
Proof.
  exact (try_get_result_cost Html.charref_sub 0
           (ticket_world fresh_ticket
              [TransportFailure; Body "ERROR"; Body "OK|a|b"])
           fresh_ticket eq_refl).
Defined.

(** X10: a refusal of the service is retried like a transport failure: when
    the three replies are bodies without the delimiter that are not the
    not-ready codes, [try_get_result] issues three requests, sleeps twice,
    raises [OperationFailedError] for the third body, and leaves every
    ticket as it was. *)
Theorem refusals_are_retried (charref_sub : string -> string) (t : loc)
    (w : World) (c : Captcha) (b1 b2 b3 : string) :
  captchas w !! t = Some c ->
  _cached_result c = None ->
  net w (length (sent w)) = Body b1 ->
  net w (1 + length (sent w)) = Body b2 ->
  net w (2 + length (sent w)) = Body b3 ->
  PyStr.contains "|" b1 = false -> is_not_ready b1 = false ->
  PyStr.contains "|" b2 = false -> is_not_ready b2 = false ->
  PyStr.contains "|" b3 = false -> is_not_ready b3 = false ->
  let r := try_get_result charref_sub t w in
  fst r = Raise (operation_failed b3)
  /\ sent (snd r) = sent w ++ repeat (poll_request c) 3
  /\ slept (snd r) = slept w ++ [1; 1]
  /\ captchas (snd r) = captchas w.
Proof.
  intros Ht Hc N1 N2 N3 D1 R1 D2 R2 D3 R3 r. subst r.
  rewrite (try_get_result_reads charref_sub t c Hc w Ht). cbv zeta.
  simpl in N2, N3. rewrite N1, N2, N3. unfold read_reply.
  rewrite D1, R1, D2, R2, D3, R3. simpl.
  rewrite <- !app_assoc. repeat split.
Qed.

Lemma refusals_are_retried_witness :
  let r := try_get_result Html.charref_sub 0
             (ticket_world fresh_ticket
                [Body "ERROR_NO_SLOT"; Body "ERROR_NO_SLOT";
                 Body "ERROR_CAPTCHA_UNSOLVABLE"]) in
  fst r = Raise (operation_failed "ERROR_CAPTCHA_UNSOLVABLE")
  /\ sent (snd r) = repeat (poll_request fresh_ticket) 3
  /\ slept (snd r) = [1; 1]
  /\ captchas (snd r) = [fresh_ticket].
Proof.
  exact (refusals_are_retried Html.charref_sub 0
           (ticket_world fresh_ticket
              [Body "ERROR_NO_SLOT"; Body "ERROR_NO_SLOT";
               Body "ERROR_CAPTCHA_UNSOLVABLE"])
           fresh_ticket "ERROR_NO_SLOT" "ERROR_NO_SLOT"
           "ERROR_CAPTCHA_UNSOLVABLE"
           eq_refl eq_refl eq_refl eq_refl eq_refl eq_refl eq_refl eq_refl
           eq_refl eq_refl eq_refl).
Defined.

(** ** [await_result] *)

(** X11: on a ticket with a cached result, [await_result] returns the
    cached value in its first iteration, without a request and without a
    sleep. *)
Theorem await_result_cached (charref_sub : string -> string) (fuel : nat)
    (t : loc) (sleep_time : nat) (w : World) (c : Captcha) (v : string) :
  captchas w !! t = Some c ->
  _cached_result c = Some v ->
  await_result charref_sub (S fuel) t sleep_time w = Some (Return v, w).
Proof.
  intros Ht Hv. cbn [await_result].
  now rewrite (try_get_result_returns_at_once _ _ _ _ _
                 (attempt_cached charref_sub t c w Ht v Hv)).
Qed.

Lemma await_result_cached_witness :
  await_result Html.charref_sub 1 0 5 (ticket_world solved_ticket [])
  = Some (Return "abc123", ticket_world solved_ticket []).
Proof.
  exact (await_result_cached Html.charref_sub 0 0 5
           (ticket_world solved_ticket []) solved_ticket "abc123"
           eq_refl eq_refl).
Defined.

Lemma not_ready_reading charref_sub r :
  says_not_ready r -> read_reply charref_sub r = NotReady.
Proof. intros [-> | ->]; reflexivity. Qed.

Section Awaiting.

Variable charref_sub : string -> string.
Variables (t : loc) (c : Captcha) (sleep_time : nat).
Hypothesis pending : _cached_result c = None.

(** One iteration on a not-ready reply: a poll, a sleep, and the loop goes
    on. *)
Lemma await_result_step fuel w :
  captchas w !! t = Some c ->
  says_not_ready (net w (length (sent w))) ->
  await_result charref_sub (S fuel) t sleep_time w =
  await_result charref_sub fuel t sleep_time (polled_and_slept c sleep_time w).
Proof.
  intros Ht Hnr. cbn [await_result].
  rewrite (try_get_result_reads charref_sub t c pending w Ht). cbv zeta.
  now rewrite (not_ready_reading _ _ Hnr).
Qed.

Lemma await_result_steps k : forall fuel w,
  captchas w !! t = Some c ->
  (forall i, i < k -> says_not_ready (net w (length (sent w) + i))) ->
  await_result charref_sub (k + fuel) t sleep_time w =
  await_result charref_sub fuel t sleep_time
    (Nat.iter k (polled_and_slept c sleep_time) w).
Proof.
  induction k as [|k IH]; intros fuel w Ht Hnr; [reflexivity|].
  cbn [Nat.add]. rewrite await_result_step; [|exact Ht|].
  - rewrite IH; [now rewrite Nat.iter_succ_r | exact Ht |].
    intros i Hi. rewrite polled_and_slept_sent.
    change (net (polled_and_slept c sleep_time w)) with (net w).
    replace (S (length (sent w)) + i) with (length (sent w) + S i) by lia.
    apply Hnr. lia.
  - replace (length (sent w)) with (length (sent w) + 0) by lia.
    apply Hnr. lia.
Qed.

Lemma after_steps k w :
  let wk := Nat.iter k (polled_and_slept c sleep_time) w in
  captchas wk = captchas w
  /\ net wk = net w
  /\ length (sent wk) = length (sent w) + k
  /\ slept wk = slept w ++ repeat sleep_time k.
Proof.
  cbv zeta. induction k as [|k (Hc & Hn & Hs & Hz)].
  - change (Nat.iter 0 (polled_and_slept c sleep_time) w) with w.
    split; [reflexivity | split; [reflexivity | split; [lia|]]].
    simpl. now rewrite app_nil_r.
  - rewrite Nat.iter_succ.
    split; [exact Hc | split; [exact Hn | split]].
    + rewrite polled_and_slept_sent, Hs. lia.
    + change (slept (Nat.iter k (polled_and_slept c sleep_time) w)
              ++ [sleep_time]
              = slept w ++ repeat sleep_time (S k)).
      rewrite Hz, <- app_assoc. f_equal.
      change [sleep_time] with (repeat sleep_time 1).
      now rewrite <- repeat_app, Nat.add_1_r.
Qed.

End Awaiting.

(** X12: when the service says not ready [k] times and then sends a body
    whose unescaped form holds the delimiter once, before [post],
    [await_result] on a pending ticket, given more than [k] iterations,
    returns [post] after [k + 1] requests and [k] sleeps of [sleep_time]
    seconds, and the ticket holds [post] as its cached result. *)
Theorem await_result_returns_when_ready (charref_sub : string -> string)
    (t : loc) (sleep_time : nat) (w : World) (c : Captcha) (k fuel : nat)
    (body pre post : string) :
  captchas w !! t = Some c ->
  _cached_result c = None ->
  (forall i, i < k -> says_not_ready (net w (length (sent w) + i))) ->
  net w (length (sent w) + k) = Body body ->
  PyStr.contains "|" body = true ->
  unescape charref_sub body = (pre ++ String "|" post)%string ->
  PyStr.contains "|" pre = false ->
  PyStr.contains "|" post = false ->
  k < fuel ->
  exists w',
    await_result charref_sub fuel t sleep_time w = Some (Return post, w')
    /\ length (sent w') = length (sent w) + k + 1
    /\ slept w' = slept w ++ repeat sleep_time k
    /\ captchas w' !! t =
         Some (mkCaptcha (api c) (captcha_id c) (Some post) (_reported_bad c)).
Proof.
  intros Ht Hc Hnr Hnet Hin Hun Hpre Hpost Hfuel.
  destruct (after_steps c sleep_time k w) as (Kc & Kn & Ks & Kz).
  set (wk := Nat.iter k (polled_and_slept c sleep_time) w) in *.
  assert (Htk : captchas wk !! t = Some c) by now rewrite Kc.
  assert (Hread : read_reply charref_sub (net wk (length (sent wk)))
                  = Ready post).
  { rewrite Kn, Ks, Hnet. unfold read_reply.
    now rewrite Hin, Hun, (split_once _ _ _ Hpre Hpost). }
  exists (resolved t c post (polled c wk)).
  replace fuel with (k + S (fuel - S k)) by lia.
  rewrite (await_result_steps charref_sub t c sleep_time Hc k _ w Ht Hnr).
  fold wk. cbn [await_result].
  rewrite (try_get_result_reads charref_sub t c Hc wk Htk). cbv zeta.
  rewrite Hread. split; [reflexivity|]. simpl.
  rewrite length_app, Ks, Kz. simpl.
  split; [lia | split; [reflexivity|]].
  apply list_lookup_insert_eq. rewrite Kc. eapply lookup_lt_Some, Ht.
Qed.

Lemma await_result_returns_when_ready_witness :
  exists w',
    await_result Html.charref_sub 3 0 5
      (ticket_world fresh_ticket
         [Body "CAPCHA_NOT_READY"; Body "CAPTCHA_NOT_READY"; Body "OK|abc123"])
    = Some (Return "abc123", w')
    /\ length (sent w') = 3
    /\ slept w' = [5; 5]
    /\ captchas w' !! 0 = Some solved_ticket.
Proof.
  refine (await_result_returns_when_ready Html.charref_sub 0 5
            (ticket_world fresh_ticket
               [Body "CAPCHA_NOT_READY"; Body "CAPTCHA_NOT_READY";
                Body "OK|abc123"])
            fresh_ticket 2 3 "OK|abc123" "OK" "abc123"
            eq_refl eq_refl _ eq_refl eq_refl eq_refl eq_refl eq_refl _).
  - intros [|[|i]] Hi; [left; reflexivity | right; reflexivity | lia].
  - lia.
Defined.

(** X13: while the service says not ready, [await_result] does not end: on
    a pending ticket, however many iterations it is given, it has not
    returned when they are used up. *)
Theorem await_result_waits_forever (charref_sub : string -> string) (t : loc)
    (sleep_time : nat) (w : World) (c : Captcha) (fuel : nat) :
  captchas w !! t = Some c ->
  _cached_result c = None ->
  (forall i, says_not_ready (net w (length (sent w) + i))) ->
  await_result charref_sub fuel t sleep_time w = None.
Proof.
  intros Ht Hc Hnr.
  replace fuel with (fuel + 0) by lia.
  now rewrite (await_result_steps charref_sub t c sleep_time Hc fuel 0 w Ht
                 (fun i _ => Hnr i)).
Qed.

Lemma await_result_waits_forever_witness :
  await_result Html.charref_sub 1000 0 1
    (mkWorld [] [] [fresh_ticket] (fun _ => None)
       (fun _ => Body "CAPCHA_NOT_READY") [] [])
  = None.
Proof.
  exact (await_result_waits_forever Html.charref_sub 0 1
           (mkWorld [] [] [fresh_ticket] (fun _ => None)
              (fun _ => Body "CAPCHA_NOT_READY") [] [])
           fresh_ticket 1000 eq_refl eq_refl (fun _ => or_introl eq_refl)).
Defined.

(** ** More on [solve] *)





(** X16: when the transport fails, [solve] raises [CommunicationError]
    after its one request and makes no ticket. *)
Theorem solve_transport_failure (self : AZCaptchaApi) (file : file_arg)
    (captcha_parameters : option dict) (w : World) (raw_data : string) :
  read_file file w = (Return raw_data, w) ->
  net w (length (sent w)) = TransportFailure ->
  let r := solve self file captcha_parameters w in
  fst r = Raise communication_error
  /\ length (sent (snd r)) = S (length (sent w))
  /\ captchas (snd r) = captchas w.
Proof.
  intros Hread Hnet r. subst r.
  rewrite solve_decorated, (solve_body_spec _ _ _ _ _ Hread), Hnet.
  cbv zeta. simpl. rewrite length_app. simpl.
  split; [reflexivity | split; [lia | reflexivity]].
Qed.

Lemma solve_transport_failure_witness :
  let r := solve demo_api (FileObject "image bytes") None (demo_world []) in
  fst r = Raise communication_error
  /\ length (sent (snd r)) = 1
  /\ captchas (snd r) = [].
Proof.
  exact (solve_transport_failure demo_api (FileObject "image bytes") None
           (demo_world []) "image bytes" eq_refl eq_refl).
Defined.



Ltac no_new_ticket :=
  split;
  [reflexivity
  |exists []; split; [simpl; now rewrite app_nil_r | simpl; lia]].

(** X18: [solve] leaves every dict object and every ticket there was as it
    is, whatever its outcome: the tickets after the call are the tickets
    before it, followed by the new one if there is one. *)
Theorem solve_keeps_existing_objects (self : AZCaptchaApi) (file : file_arg)
    (captcha_parameters : option dict) (w : World) :
  let w' := snd (solve self file captcha_parameters w) in
  dicts w' = dicts w
  /\ exists new, captchas w' = captchas w ++ new /\ length new <= 1.
Proof.
  intros w'. subst w'.
  destruct (read_file file w) as [[raw_data|e] w0] eqn:Hread.
  - assert (w0 = w) as ->.
    { unfold read_file in Hread. destruct file as [p|raw];
        [destruct (fs w p)|]; now inversion Hread. }
    rewrite solve_decorated, (solve_body_spec _ _ _ _ _ Hread). cbv zeta.
    destruct (net w (length (sent w))) as [body|];
      [|no_new_ticket].
    destruct (PyStr.contains "|" body);
      [|no_new_ticket].
    destruct (PyStr.split "|" body) as [|a [|b [|x rest]]];
      try (no_new_ticket).
    split; [reflexivity|]. eexists. split; [reflexivity | simpl; lia].
  - assert (w0 = w) as ->.
    { unfold read_file in Hread. destruct file as [p|raw];
        [destruct (fs w p)|]; now inversion Hread. }
    unfold solve, _rewrite_http_to_com_err, _rewrite_to_format_err, solve_body.
    coro_unfold. rewrite Hread.
    destruct (existsb (isinstance e) [IndexError; ValueError]);
      [|destruct (isinstance e ClientError)];
      (no_new_ticket).
Qed.

(** X19: the id [solve] receives is the id [try_get_result] sends: the
    ticket made from a body with one delimiter polls with [action = get],
    the text after the delimiter as [id], and the key of the client, in each
    of the one to three requests of a call. *)
Theorem ticket_polls_with_its_id (charref_sub : string -> string)
    (self : AZCaptchaApi) (file : file_arg) (captcha_parameters : option dict)
    (w : World) (raw_data pre id : string) :
  read_file file w = (Return raw_data, w) ->
  net w (length (sent w)) = Body (pre ++ String "|" id)%string ->
  PyStr.contains "|" pre = false ->
  PyStr.contains "|" id = false ->
  let r := solve self file captcha_parameters w in
  let t := length (captchas w) in
  let poll := mkRequest GET RES_URL
                (Params [("action", "get"); ("id", id);
                         ("key", api_key self)]) in
  fst r = Return t
  /\ exists k,
       1 <= k <= 3
       /\ sent (snd (try_get_result charref_sub t (snd r)))
          = sent (snd r) ++ repeat poll k.
Proof.
  intros Hread Hnet Hpre Hid r t poll.
  assert (E : r = (Return t,
                   with_captchas (captchas w ++ [mkCaptcha self id None false])
                     (submitted self raw_data captcha_parameters w))).
  { subst r. rewrite solve_decorated, (solve_body_spec _ _ _ _ _ Hread), Hnet.
    cbv zeta. now rewrite contains_delimited, (split_once _ _ _ Hpre Hid). }
  assert (Hr : fst r = Return t) by now rewrite E.
  assert (Hc : captchas (snd r) = captchas w ++ [mkCaptcha self id None false])
    by now rewrite E.
  clearbody r. clear E. split; [exact Hr|].
  set (c := mkCaptcha self id None false) in *.
  assert (Ht : captchas (snd r) !! t = Some c)
    by (rewrite Hc; apply lookup_alloc).
  rewrite (try_get_result_reads charref_sub t c eq_refl (snd r) Ht). cbv zeta.
  destruct (read_reply _ (net (snd r) (length (sent (snd r)))));
    [exists 1; split; [lia | reflexivity]
    |exists 1; split; [lia | reflexivity]|].
  destruct (read_reply _ (net (snd r) (S (length (sent (snd r))))));
    [exists 2; split; [lia | simpl; now rewrite <- app_assoc]
    |exists 2; split; [lia | simpl; now rewrite <- app_assoc]|].
  destruct (read_reply _ (net (snd r) (S (S (length (sent (snd r)))))));
    exists 3; (split; [lia | simpl; now rewrite <- !app_assoc]).
Qed.

Lemma ticket_polls_with_its_id_witness :
  let r := solve demo_api (FileObject "image bytes") None
             (demo_world [Body "OK|2122988149"; Body "CAPCHA_NOT_READY"]) in
  let poll := mkRequest GET RES_URL
                (Params [("action", "get"); ("id", "2122988149");
                         ("key", "KEY")]) in
  fst r = Return 0
  /\ exists k,
       1 <= k <= 3
       /\ sent (snd (try_get_result Html.charref_sub 0 (snd r)))
          = sent (snd r) ++ repeat poll k.
Proof.
  exact (ticket_polls_with_its_id Html.charref_sub demo_api
           (FileObject "image bytes") None
           (demo_world [Body "OK|2122988149"; Body "CAPCHA_NOT_READY"])
           "image bytes" "OK" "2122988149" eq_refl eq_refl eq_refl eq_refl).
Defined.

(** ** More on [report_bad] *)

(** X20: on a ticket without a cached result, [report_bad] raises the
    [ValueError] of the first guard, which the decorator leaves as it is,
    and the world is as it was: no request is issued. *)
Theorem report_bad_before_result (t : loc) (w : World) (c : Captcha) :
  captchas w !! t = Some c ->
  _cached_result c = None ->
  report_bad t w = (Raise not_yet_retrieved, w).
Proof.
  intros Ht Hc. unfold report_bad, _rewrite_http_to_com_err, report_bad_body.
  coro_unfold. now rewrite (total_lookup_at _ _ _ Ht), Hc.
Qed.

Lemma report_bad_before_result_witness :
  report_bad 0 (ticket_world fresh_ticket [Body "OK_REPORT_RECORDED"])
  = (Raise not_yet_retrieved,
     ticket_world fresh_ticket [Body "OK_REPORT_RECORDED"]).
Proof.
  exact (report_bad_before_result 0
           (ticket_world fresh_ticket [Body "OK_REPORT_RECORDED"])
           fresh_ticket eq_refl eq_refl).
Defined.

(** X21: on a ticket with a cached result whose [_reported_bad] is set,
    [report_bad] raises the [ValueError] of the second guard and the world
    is as it was: no request is issued. *)
Theorem report_bad_when_flag_is_set (t : loc) (w : World) (c : Captcha)
    (v : string) :
  captchas w !! t = Some c ->
  _cached_result c = Some v ->
  _reported_bad c = true ->
  report_bad t w = (Raise double_report, w).
Proof.
  intros Ht Hv Hr. unfold report_bad, _rewrite_http_to_com_err, report_bad_body.
  coro_unfold. now rewrite (total_lookup_at _ _ _ Ht), Hv, Hr.
Qed.

Lemma report_bad_when_flag_is_set_witness :
  report_bad 0 (ticket_world flagged_ticket [Body "OK_REPORT_RECORDED"])
  = (Raise double_report,
     ticket_world flagged_ticket [Body "OK_REPORT_RECORDED"]).
Proof.
  exact (report_bad_when_flag_is_set 0
           (ticket_world flagged_ticket [Body "OK_REPORT_RECORDED"])
           flagged_ticket "abc123" eq_refl eq_refl eq_refl).
Defined.

(** X22: [report_bad] never returns: in every world and for every ticket
    its outcome is an exception, one of the two [ValueError]s of the guards,
    [CommunicationError], or [ResponseFormatError]. *)
Theorem report_bad_always_raises (t : loc) (w : World) :
  exists e,
    fst (report_bad t w) = Raise e
    /\ (e = not_yet_retrieved \/ e = double_report
        \/ e = communication_error \/ e = unexpected_api_response).
Proof.
  unfold report_bad, _rewrite_http_to_com_err, report_bad_body. coro_unfold.
  destruct (_cached_result (captchas w !!! t)); [|eexists; split; eauto].
  destruct (_reported_bad (captchas w !!! t)); [eexists; split; eauto|].
  unfold new_dict. rewrite fresh_get.
  destruct (net w (length (sent w))); simpl; eexists; split; eauto.
Qed.
